(** * cbr_dbapi: currency-rate store, export pipeline and latest-rate query

    A shallow embedding of the service's Python sources (models.py,
    schemas.py, handlers.py, botocore_client.py, main.py) together with the
    properties its specification states about the export/backup pipeline
    and the latest-rate resolution query.

    Conventions.
    - Everything outside the repository (process environment, pandas
      writers, the S3 client, the link shortener, the OS entropy source) is
      gathered in [Externals] (read-only) and [World] (mutable).
    - Effectful code runs in the monad [M]: a state monad over [World]
      with Python exceptions as the error component.
    - A Python object with lazily cached attributes ([cached_property]) is
      a record that is threaded through its methods. *)

From Stdlib Require Import ZArith String Ascii List Lia Bool.
From Stdlib Require Import QArith Qcanon.
From Stdlib Require Import Sorting.Sorted Permutation.
From Stdlib Require OrderedTypeEx.
From stdpp Require Import base decidable option list strings gmap sorting.

Local Open Scope Z_scope.
Local Open Scope string_scope.
Local Open Scope list_scope.

Definition bytes := list Byte.byte.

(** ** Text helpers shared by the library models *)

Module text.

(** [endswith s suffix] is Python's [str.endswith]. *)
Definition endswith (s suffix : string) : bool :=
  let n := String.length s in
  let k := String.length suffix in
  if (k <=? n)%nat then String.eqb (substring (n - k) k s) suffix else false.

Definition digit_char (d : Z) : ascii :=
  match d with
  | 0 => "0" | 1 => "1" | 2 => "2" | 3 => "3" | 4 => "4" | 5 => "5"
  | 6 => "6" | 7 => "7" | 8 => "8" | 9 => "9" | 10 => "a" | 11 => "b"
  | 12 => "c" | 13 => "d" | 14 => "e" | _ => "f"
  end%char.

(** The [n] least significant digits of [v] in base [b], most
    significant first: what [%0nd] ([b = 10]) and [%0nx] ([b = 16])
    print for [0 <= v < b ^ n]. *)
Fixpoint zfill (b : Z) (n : nat) (v : Z) : string :=
  match n with
  | O => ""
  | S n' => zfill b n' (v / b) +:+ String (digit_char (v mod b)) ""
  end.

End text.

(** ** datetime (standard library): calendar dates *)

Module datetime.

Record date := mkdate { year : Z; month : Z; day : Z }.

Record datetime := mkdatetime {
  dt_date : date; hour : Z; minute : Z; second : Z; microsecond : Z }.

(** Dates compare as the triples (year, month, day). *)
Definition le (a b : date) : Prop :=
  year a < year b ∨
  (year a = year b ∧
    (month a < month b ∨ (month a = month b ∧ day a <= day b))).

#[global] Instance le_dec : RelDecision le.
Proof. intros a b. unfold le. apply _. Defined.

#[global] Instance date_eq_dec : EqDecision date.
Proof. solve_decision. Defined.

(** [date.isoformat()]: "%04d-%02d-%02d". *)
Definition isoformat (d : date) : string :=
  text.zfill 10 4 (year d) +:+ "-" +:+ text.zfill 10 2 (month d)
    +:+ "-" +:+ text.zfill 10 2 (day d).

(** [%Y] of [strftime] as the C library of a Linux host prints it: the
    year in decimal without padding (years are 1 to 9999). *)
Definition strftime_Y (y : Z) : string :=
  if (y <? 10)%Z then text.zfill 10 1 y
  else if (y <? 100)%Z then text.zfill 10 2 y
  else if (y <? 1000)%Z then text.zfill 10 3 y
  else text.zfill 10 4 y.

(** [date.strftime("%Y-%m-%d")] *)
Definition strftime_Y_m_d (d : date) : string :=
  strftime_Y (year d) +:+ "-" +:+ text.zfill 10 2 (month d)
    +:+ "-" +:+ text.zfill 10 2 (day d).

End datetime.

(** ** models.py *)

Module models.

(** The rate value of a stored double: rates are only stored, compared
    for equality and echoed, so a rate is represented by the rational
    number the double denotes. *)
Definition float := Qc.

Record CurrencyRate := mkCurrencyRate {
  id : Z;
  digital_code : string;
  letter_code : string;
  units : Z;
  currency_name : string;
  exchange_rate : float;
  date : datetime.date;
  timestamp : datetime.datetime;
  source : string
}.

(** [CurrencyRate.__table__.columns.keys()]: declaration order. *)
Definition currency_columns : list string :=
  ["id"; "digital_code"; "letter_code"; "units"; "currency_name";
   "exchange_rate"; "date"; "timestamp"; "source"].

End models.

(** ** Python exceptions raised along the modelled paths *)

Inductive exn :=
| AttributeError (msg : string)   (* attribute access on [None] *)
| KeyError                        (* missing DataFrame column labels *)
| EnvError (name : string)        (* environs: variable not set *)
| ValidationError (field : string) (* pydantic, surfaced as HTTP 422 *)
| EncodingError                   (* a pandas writer failed *)
| ClientError                     (* the object store rejected a call *)
| ShortenerError                  (* the link shortener failed *)
| DBAPIError.                     (* the database driver refused a statement *)

(** ** pandas: the part of [DataFrame] the handlers rely on *)

Module pd.

Inductive value :=
| VInt (z : Z)
| VStr (s : string)
| VFloat (q : models.float)
| VDate (d : datetime.date)
| VDateTime (t : datetime.datetime)
| VObject                (* an opaque Python object *)
| NaN.                   (* a missing cell *)

(** A Python [dict] with string keys, in insertion order. *)
Definition dict := list (string * value).

Definition dict_get (d : dict) (k : string) : option value :=
  snd <$> List.find (λ kv, String.eqb (fst kv) k) d.

Record DataFrame := mkDataFrame {
  columns : list string;
  rows : list (list value)
}.

(** Labels not yet in [seen], in order, without repetition. *)
Fixpoint fresh_labels (seen ks : list string) : list string :=
  match ks with
  | [] => []
  | k :: ks' =>
      if bool_decide (k ∈ seen) then fresh_labels seen ks'
      else k :: fresh_labels (seen ++ [k]) ks'
  end.

(** [DataFrame.from_records(records)] for a list of dicts: the columns
    are the keys in order of first appearance (none for an empty
    list), a key missing from a record gives a missing cell. *)
Definition from_records (records : list dict) : DataFrame :=
  let cols :=
    fold_left (λ acc r, acc ++ fresh_labels acc (map fst r)) records [] in
  {| columns := cols;
     rows := map (λ r, map (λ c, default NaN (dict_get r c)) cols) records |}.

Fixpoint index_of (c : string) (cols : list string) : option nat :=
  match cols with
  | [] => None
  | c' :: cols' => if String.eqb c' c then Some O else S <$> index_of c cols'
  end.

(** [df[key]] for a list of labels: [KeyError] unless every label is a
    column; otherwise the columns [key], in that order. *)
Definition getitem (df : DataFrame) (key : list string) : exn + DataFrame :=
  if forallb (λ c, bool_decide (c ∈ columns df)) key then
    inr {| columns := key;
           rows := map (λ row,
                     map (λ c, default NaN (i ← index_of c (columns df); row !! i)) key)
                   (rows df) |}
  else inl KeyError.

End pd.

(** ** io.BytesIO *)

Module io.

Record BytesIO := mkBytesIO { getvalue : bytes; tell : nat }.

Definition empty : BytesIO := {| getvalue := []; tell := O |}.

Definition write (b : BytesIO) (data : bytes) : BytesIO :=
  {| getvalue := take (tell b) (getvalue b) ++ data
                   ++ drop (tell b + length data)%nat (getvalue b);
     tell := (tell b + length data)%nat |}.

Definition seek (b : BytesIO) (pos : nat) : BytesIO :=
  {| getvalue := getvalue b; tell := pos |}.

(** [read()]: everything from the current position; the position moves
    to the end. *)
Definition read (b : BytesIO) : bytes * BytesIO :=
  (drop (tell b) (getvalue b),
   {| getvalue := getvalue b;
      tell := Nat.max (tell b) (length (getvalue b)) |}).

End io.

(** ** The outside world *)

(** What the process is started with and the libraries and services it
    calls, as one request meets them: a writer may embed the time of
    writing, so another request may meet other answers, and a property of
    several requests takes one value per request.  The model covers
    processes in which LOGFIRE_TOKEN is defined (possibly blank), so that
    the module-level [logfire_token] of main.py is bound. *)
Record Externals := mkExternals {
  LOGFIRE_TOKEN : string;
  OBS_ACCESS_KEY : option string;
  OBS_SECRET_KEY : option string;
  OBS_REGION : option string;
  OBS_ENDPOINT : option string;
  OBS_BUCKET : option string;
  (* datetime.strptime(value, format).date() *)
  strptime : string → string → option datetime.date;
  (* pandas writers: the bytes written for a frame *)
  to_csv : pd.DataFrame → exn + bytes;
  to_json : pd.DataFrame → exn + bytes;
  to_parquet : pd.DataFrame → exn + bytes;
  to_excel : pd.DataFrame → exn + bytes;
  (* S3: whether a put of (bucket, key) is accepted; the presigned URL *)
  s3_put_object : string → string → option exn;
  s3_presigned_url : string → string → exn + string;
  (* py_spoo_url: Shortener().shorten(url) *)
  spoo_shorten : string → exn + string
}.

(** Statements sent through [session.execute]. *)
Inductive statement :=
| SelectRange (lo hi : option datetime.date)
| SelectLatest (codes : option (list string)).

(** Calls that leave the process, in the order they happen. *)
Inductive event :=
| Execute (s : statement)
| Encode (extension : string)
| PutObject (bucket key : string) (body : bytes) (content_type : string)
| GeneratePresignedUrl (bucket key : string)
| Shorten (url : string).

Record S3Object := mkS3Object { s3_body : bytes; s3_content_type : string }.

Record World := mkWorld {
  currency_rates : list models.CurrencyRate;      (* the table *)
  objects : gmap (string * string) S3Object;      (* (bucket, key) ↦ object *)
  urandom : nat → Z;                              (* 16-byte draws of os.urandom *)
  drawn : nat;                                    (* draws consumed so far *)
  trace : list event
}.

(** ** The effect monad *)

Definition M (A : Type) : Type := World → (exn + A) * World.

#[global] Instance M_ret : MRet M := λ A x w, (inr x, w).
#[global] Instance M_bind : MBind M := λ A B f m w,
  match m w with
  | (inl e, w') => (inl e, w')
  | (inr a, w') => f a w'
  end.

Definition raise {A} (e : exn) : M A := λ w, (inl e, w).

Definition lift {A} (r : exn + A) : M A :=
  match r with inl e => raise e | inr a => mret a end.

(** The world after more calls have left the process. *)
Definition record_events (w : World) (evs : list event) : World :=
  {| currency_rates := currency_rates w; objects := objects w;
     urandom := urandom w; drawn := drawn w; trace := trace w ++ evs |}.

Definition emit (e : event) : M unit := λ w, (inr tt, record_events w [e]).

Definition get_world : M World := λ w, (inr w, w).

(** [os.urandom(16)] as an integer: the next draw. *)
Definition os_urandom16 : M Z := λ w,
  (inr (urandom w (drawn w)),
   {| currency_rates := currency_rates w; objects := objects w;
      urandom := urandom w; drawn := S (drawn w); trace := trace w |}).

Definition store_object (bucket key : string) (o : S3Object) : M unit := λ w,
  (inr tt,
   {| currency_rates := currency_rates w;
      objects := <[(bucket, key) := o]> (objects w);
      urandom := urandom w; drawn := drawn w; trace := trace w |}).

(** [env(name)] of environs without a default. *)
Definition env (name : string) (v : option string) : M string :=
  match v with Some s => mret s | None => raise (EnvError name) end.

(** [with logfire.span(name): ...] only records timing. *)
Definition span {A} (name : string) (m : M A) : M A := m.

(** ** uuid (standard library) *)

Module uuid.

(** [uuid4()] is [UUID(bytes=os.urandom(16), version=4)]: the draw [r]
    with the variant and version bits overwritten. *)
Definition uuid4 (r : Z) : Z :=
  let int := r mod 2 ^ 128 in
  let int := Z.land int (Z.lnot (Z.shiftl 0xc000 48)) in
  let int := Z.lor int (Z.shiftl 0x8000 48) in
  let int := Z.land int (Z.lnot (Z.shiftl 0xf000 64)) in
  Z.lor int (Z.shiftl 4 76).

(** ['%s-%s-%s-%s-%s' % (hex[:8], hex[8:12], hex[12:16], hex[16:20],
    hex[20:])] for the 32 digits [hex]. *)
Definition hyphenate (hex : string) : string :=
  substring 0 8 hex +:+ "-" +:+ substring 8 4 hex +:+ "-"
    +:+ substring 12 4 hex +:+ "-" +:+ substring 16 4 hex +:+ "-"
    +:+ substring 20 12 hex.

(** [str(u)]: the 32 hexadecimal digits of [u.int], grouped 8-4-4-4-12. *)
Definition str (u : Z) : string := hyphenate (text.zfill 16 32 u).

End uuid.

(** ** aiobotocore: the S3 client *)

Module aiobotocore.

Inductive AioBaseClient := s3_client.

(** [client.put_object(Bucket, Key, Body, ContentType)]: the body is
    read from its current position. *)
Definition put_object (ext : Externals) (Bucket Key : string)
    (Body : io.BytesIO) (ContentType : string) : M io.BytesIO :=
  let '(data, Body') := io.read Body in
  emit (PutObject Bucket Key data ContentType) ;;
  match s3_put_object ext Bucket Key with
  | Some e => raise e
  | None =>
      store_object Bucket Key
        {| s3_body := data; s3_content_type := ContentType |} ;;
      mret Body'
  end.

Definition generate_presigned_url (ext : Externals) (Bucket Key : string)
    : M string :=
  emit (GeneratePresignedUrl Bucket Key) ;;
  lift (s3_presigned_url ext Bucket Key).

End aiobotocore.

Module py_spoo_url.

Definition shorten (ext : Externals) (url : string) : M string :=
  emit (Shorten url) ;; lift (spoo_shorten ext url).

End py_spoo_url.

(** ** handlers.py *)

Module handlers.

(** The concrete subclasses of [ScalarsHandler]. *)
Inductive Maker := CSVMaker | JSONMaker | ParquetMaker | XlsxMaker.

#[global] Instance Maker_eq_dec : EqDecision Maker.
Proof. solve_decision. Defined.

Definition extension (cls : Maker) : string :=
  match cls with
  | CSVMaker => "csv"
  | JSONMaker => "json"
  | ParquetMaker => "parquet"
  | XlsxMaker => "xlsx"
  end.

Definition content_type (cls : Maker) : string :=
  match cls with
  | CSVMaker => "text/csv"
  | JSONMaker => "application/json"
  | ParquetMaker => "application/vnd.apache.parquet"
  | XlsxMaker =>
      "application/vnd.openxmlformats-officedocument.spreadsheetml.sheet"
  end.

(** The pandas writer each subclass calls in its [body]. *)
Definition writer (ext : Externals) (cls : Maker)
    : pd.DataFrame → exn + bytes :=
  match cls with
  | CSVMaker => to_csv ext
  | JSONMaker => to_json ext
  | ParquetMaker => to_parquet ext
  | XlsxMaker => to_excel ext
  end.

(** A handler instance.  [body] and [key] are [cached_property]s:
    [body_cached] tells whether [body] has been computed (its value is
    the object [_body] itself), [key_cached] holds the computed key. *)
Record ScalarsHandler := mkScalarsHandler {
  cls : Maker;
  df : pd.DataFrame;
  client : option aiobotocore.AioBaseClient;
  _is_backup : bool;
  _body : io.BytesIO;
  body_cached : bool;
  key_cached : option string
}.

(** [scalar.__dict__] of a loaded row. *)
Definition __dict__ (scalar : models.CurrencyRate) : pd.dict :=
  [("_sa_instance_state", pd.VObject);
   ("id", pd.VInt (models.id scalar));
   ("digital_code", pd.VStr (models.digital_code scalar));
   ("letter_code", pd.VStr (models.letter_code scalar));
   ("units", pd.VInt (models.units scalar));
   ("currency_name", pd.VStr (models.currency_name scalar));
   ("exchange_rate", pd.VFloat (models.exchange_rate scalar));
   ("date", pd.VDate (models.date scalar));
   ("timestamp", pd.VDateTime (models.timestamp scalar));
   ("source", pd.VStr (models.source scalar))].

Definition __init__ (cls : Maker) (scalars : list models.CurrencyRate)
    (botoclient : option aiobotocore.AioBaseClient) (is_backup : bool)
    : exn + ScalarsHandler :=
  let records := map __dict__ scalars in
  match pd.getitem (pd.from_records records) models.currency_columns with
  | inl e => inl e
  | inr df =>
      inr {| cls := cls; df := df; client := botoclient;
             _is_backup := is_backup; _body := io.empty;
             body_cached := false; key_cached := None |}
  end.

Definition with_body (self : ScalarsHandler) (b : io.BytesIO) (cached : bool)
    : ScalarsHandler :=
  {| cls := cls self; df := df self; client := client self;
     _is_backup := _is_backup self; _body := b;
     body_cached := cached; key_cached := key_cached self |}.

Definition with_key (self : ScalarsHandler) (k : string) : ScalarsHandler :=
  {| cls := cls self; df := df self; client := client self;
     _is_backup := _is_backup self; _body := _body self;
     body_cached := body_cached self; key_cached := Some k |}.

(** [self.body]: on first access the writer fills [_body]; the value is
    [_body] of the returned handler. *)
Definition body (ext : Externals) (self : ScalarsHandler) : M ScalarsHandler :=
  if body_cached self then mret self
  else
    emit (Encode (extension (cls self))) ;;
    data ← lift (writer ext (cls self) (df self)) ;
    mret (with_body self (io.write (_body self) data) true).

(** [self.key]. *)
Definition key (self : ScalarsHandler) : M (string * ScalarsHandler) :=
  match key_cached self with
  | Some k => mret (k, self)
  | None =>
      name ← (if _is_backup self then mret "currency_rates_db_backup"
              else r ← os_urandom16 ; mret (uuid.str (uuid.uuid4 r))) ;
      let k := name +:+ "." +:+ extension (cls self) in
      mret (k, with_key self k)
  end.

(** [self.client.<name>]: attribute access on the client. *)
Definition client_attr (self : ScalarsHandler) (name : string)
    : M aiobotocore.AioBaseClient :=
  match client self with
  | Some c => mret c
  | None =>
      raise (AttributeError
               ("'NoneType' object has no attribute '" +:+ name +:+ "'"))
  end.

Definition upload_contents (ext : Externals) (self : ScalarsHandler)
    : M ScalarsHandler :=
  self ← span "Make a format-specific object"
           (self ← body ext self ;
            mret (with_body self (io.seek (_body self) 0) true)) ;
  span "Put an object to a bucket"
    (_ ← client_attr self "put_object" ;
     bucket ← env "OBS_BUCKET" (OBS_BUCKET ext) ;
     '(k, self) ← key self ;
     self ← body ext self ;
     b ← aiobotocore.put_object ext bucket k (_body self)
            (content_type (cls self)) ;
     mret (with_body self b true)).

Definition generate_url (ext : Externals) (self : ScalarsHandler)
    : M (string * ScalarsHandler) :=
  '(url, self) ← span "Generate a presigned url"
    (_ ← client_attr self "generate_presigned_url" ;
     bucket ← env "OBS_BUCKET" (OBS_BUCKET ext) ;
     '(k, self) ← key self ;
     url ← aiobotocore.generate_presigned_url ext bucket k ;
     mret (url, self)) ;
  span "Shorten url and return it"
    (short ← py_spoo_url.shorten ext url ; mret (short, self)).

End handlers.

(** ** botocore_client.py *)

Module botocore_client.

(** The [try] block reading the four S3 settings succeeds iff all of
    them are set. *)
Definition S3_ENABLED (ext : Externals) : bool :=
  match OBS_ACCESS_KEY ext, OBS_SECRET_KEY ext, OBS_REGION ext,
        OBS_ENDPOINT ext with
  | Some _, Some _, Some _, Some _ => true
  | _, _, _, _ => false
  end.

(** The value [get_async_client] yields to the endpoint. *)
Definition get_async_client (ext : Externals)
    : option aiobotocore.AioBaseClient :=
  if negb (S3_ENABLED ext) then None else Some aiobotocore.s3_client.

End botocore_client.

(** ** SQL: the relational operators the statements of main.py use

    The statements are read as the PostgreSQL server of the deployment
    runs them (DISTINCT ON, a 32-bit [Integer] column).  Where SQL leaves
    an order open (rows that tie under ORDER BY, a statement without
    ORDER BY) the lists below fix one; properties that are to hold of
    every such order are stated up to permutation or for rows without
    ties. *)

Module sql.

Section relational.
Context {A : Type}.

(** The order of one ORDER BY expression: rows compared through a key. *)
Definition asc {K} (le : relation K) (key : A → K) : relation A :=
  λ x y, le (key x) (key y).

Definition desc {K} (le : relation K) (key : A → K) : relation A :=
  λ x y, le (key y) (key x).

#[global] Instance asc_dec {K} (le : relation K) (key : A → K)
  `{!RelDecision le} : RelDecision (asc le key).
Proof. intros x y. unfold asc. apply _. Defined.

#[global] Instance desc_dec {K} (le : relation K) (key : A → K)
  `{!RelDecision le} : RelDecision (desc le key).
Proof. intros x y. unfold desc. apply _. Defined.

(** ORDER BY e1, e2: by [R1], rows that tie on [R1] by [R2]. *)
Definition lex (R1 R2 : relation A) : relation A :=
  λ x y, (R1 x y ∧ ¬ R1 y x) ∨ (R1 x y ∧ R1 y x ∧ R2 x y).

#[global] Instance lex_dec (R1 R2 : relation A)
  `{!RelDecision R1, !RelDecision R2} : RelDecision (lex R1 R2).
Proof. intros x y. unfold lex. apply _. Defined.

Definition order_by (R : relation A) `{!RelDecision R}
    (rows : list A) : list A :=
  merge_sort R rows.

(** WHERE c1 AND ... AND cn (no clause: every row). *)
Definition where_ (clauses : list (A → bool)) (rows : list A) : list A :=
  List.filter (λ row, forallb (λ c, c row) clauses) rows.

(** SELECT DISTINCT ON (key) over ordered rows: the first row of each
    run of rows with equal [key]. *)
Fixpoint distinct_on_from {K} `{!EqDecision K} (key : A → K) (prev : K)
    (rows : list A) : list A :=
  match rows with
  | [] => []
  | y :: rows' =>
      if decide (key y = prev) then distinct_on_from key prev rows'
      else y :: distinct_on_from key (key y) rows'
  end.

Definition distinct_on {K} `{!EqDecision K} (key : A → K)
    (rows : list A) : list A :=
  match rows with
  | [] => []
  | x :: rows' => x :: distinct_on_from key (key x) rows'
  end.

(** SELECT left.* FROM left JOIN right ON [on]: one output row per
    matching pair.  The rows are listed as [left] has them; SQL leaves
    the order of a statement without ORDER BY open, so only the rows and
    how often each occurs are meant. *)
Definition join {B} (on : A → B → bool) (left : list A) (right : list B)
    : list A :=
  flat_map (λ l, map (λ _, l) (List.filter (on l) right)) left.

End relational.

Definition string_le : relation string := λ a b, String.leb a b = true.

#[global] Instance string_le_dec : RelDecision string_le.
Proof. intros a b. unfold string_le. apply _. Defined.

End sql.

(** ** schemas.py *)

Module schemas.

Inductive member := MakerClass (m : handlers.Maker) | Other.

(** [inspect.getmembers(handlers)]: the module's names, sorted. *)
Definition handlers_members : list (string * member) :=
  [("ABC", Other); ("AioBaseClient", Other);
   ("CSVMaker", MakerClass handlers.CSVMaker);
   ("JSONMaker", MakerClass handlers.JSONMaker);
   ("ParquetMaker", MakerClass handlers.ParquetMaker);
   ("ScalarResult", Other); ("ScalarsHandler", Other);
   ("XlsxMaker", MakerClass handlers.XlsxMaker);
   ("__builtins__", Other); ("__cached__", Other); ("__doc__", Other);
   ("__file__", Other); ("__loader__", Other); ("__name__", Other);
   ("__package__", Other); ("__spec__", Other);
   ("abstractmethod", Other); ("cached_property", Other);
   ("currency_columns", Other); ("env", Other); ("io", Other);
   ("logfire", Other); ("pd", Other); ("uuid4", Other)].

(** The dict comprehension: [obj.extension ↦ obj] for the members whose
    name ends in "Maker"; a later entry replaces an earlier one. *)
Definition available_output_formats : gmap string handlers.Maker :=
  fold_left
    (λ d '(name, obj),
       if text.endswith name "Maker" then
         match obj with
         | MakerClass m => <[handlers.extension m := m]> d
         | Other => d
         end
       else d)
    handlers_members ∅.

(** [Literal[tuple(available_output_formats)]]: membership in the keys. *)
Definition outputFormats (value : string) : bool :=
  bool_decide (is_Some (available_output_formats !! value)).

(** [date_value = str | date | None] *)
Inductive date_value :=
| DNone
| DStr (s : string)
| DDate (d : datetime.date).

(** The "before" validator of [startDate] and [endDate]. *)
Definition handle_dates (ext : Externals) (field : string)
    (value : date_value) : exn + date_value :=
  match value with
  | DNone => inr DNone
  | DStr s =>   (* for a request *)
      match strptime ext s "%Y%m%d" with
      | Some d => inr (DDate d)
      | None => inl (ValidationError field)
      end
  | DDate d =>  (* for a response *)
      inr (DStr (datetime.strftime_Y_m_d d))
  end.

(** A validated [Request] built from query strings or from keyword
    defaults: its bounds are dates or [None]. *)
Record Request := mkRequest {
  startDate : option datetime.date;
  endDate : option datetime.date;
  outputFormat : string;
  isBackup : bool
}.

(** A [Response]: the bounds went through [handle_dates] once more and
    are strings or [None]. *)
Record Response := mkResponse {
  r_startDate : option string;
  r_endDate : option string;
  r_outputFormat : string;
  url : option string;
  comment : option string
}.

(** The query string of GET /currency-rates: each parameter present
    (with its text) or absent. *)
Record Query := mkQuery {
  q_startDate : option string;
  q_endDate : option string;
  q_outputFormat : option string;
  q_isBackup : option string
}.

Definition lower (s : string) : string :=
  string_of_list_ascii
    (map (λ c, let n := nat_of_ascii c in
               if ((65 <=? n) && (n <=? 90))%nat then ascii_of_nat (n + 32)
               else c)
         (list_ascii_of_string s)).

(** pydantic's reading of a [bool] from text. *)
Definition parse_bool (s : string) : option bool :=
  let s := lower s in
  if bool_decide (s ∈ ["1"; "on"; "t"; "true"; "y"; "yes"]) then Some true
  else if bool_decide (s ∈ ["0"; "off"; "f"; "false"; "n"; "no"])
  then Some false
  else None.

Definition request_date (ext : Externals) (field : string)
    (value : option string) : exn + option datetime.date :=
  match handle_dates ext field (from_option DStr DNone value) with
  | inl e => inl e
  | inr (DDate d) => inr (Some d)
  | inr _ => inr None
  end.

(** The [Request] built from the query parameters: field validation in
    declaration order. *)
Definition Request_validate (ext : Externals) (q : Query) : exn + Request :=
  match request_date ext "startDate" (q_startDate q) with
  | inl e => inl e
  | inr lo =>
    match request_date ext "endDate" (q_endDate q) with
    | inl e => inl e
    | inr hi =>
      let fmt := default "parquet" (q_outputFormat q) in
      if negb (outputFormats fmt) then inl (ValidationError "outputFormat")
      else
        match from_option parse_bool (Some false) (q_isBackup q) with
        | None => inl (ValidationError "isBackup")
        | Some b =>
            inr {| startDate := lo; endDate := hi;
                   outputFormat := fmt; isBackup := b |}
        end
    end
  end.

Definition response_date (ext : Externals) (field : string)
    (value : option datetime.date) : exn + option string :=
  match handle_dates ext field (from_option DDate DNone value) with
  | inl e => inl e
  | inr (DStr s) => inr (Some s)
  | inr _ => inr None
  end.

(** The [Response] built from [r.model_dump()] and [url] or [comment]:
    [model_dump] leaves [isBackup] out. *)
Definition Response_of (ext : Externals) (r : Request)
    (url comment : option string) : exn + Response :=
  match response_date ext "startDate" (startDate r) with
  | inl e => inl e
  | inr lo =>
    match response_date ext "endDate" (endDate r) with
    | inl e => inl e
    | inr hi =>
      if negb (outputFormats (outputFormat r))
      then inl (ValidationError "outputFormat")
      else inr {| r_startDate := lo; r_endDate := hi;
                  r_outputFormat := outputFormat r;
                  url := url; comment := comment |}
    end
  end.

End schemas.

(** ** main.py *)

Module main.

(** What GET /currency-rates returns: a [Response] model (sent as JSON)
    or a bare [fastapi.Response] with a status code. *)
Inductive result :=
| Json (r : schemas.Response)
| StatusOnly (status_code : Z).

Definition HTTP_204_NO_CONTENT : Z := 204.

(** [backup_request = Request(isBackup=True)] *)
Definition backup_request : schemas.Request :=
  {| schemas.startDate := None; schemas.endDate := None;
     schemas.outputFormat := "parquet"; schemas.isBackup := true |}.

Definition logfire_token (ext : Externals) : bool :=
  negb (String.eqb (LOGFIRE_TOKEN ext) "").

(** [operator.ge], [operator.le] on the date column and a bound. *)
Definition operator_ge (column bound : datetime.date) : bool :=
  bool_decide (datetime.le bound column).
Definition operator_le (column bound : datetime.date) : bool :=
  bool_decide (datetime.le column bound).

(** [[func(dates, date) for date, func in clauses if date]] *)
Definition clauses (r : schemas.Request)
    : list (models.CurrencyRate → bool) :=
  omap (λ '(date, func),
          (λ bound (row : models.CurrencyRate), func (models.date row) bound)
            <$> date)
       [(schemas.startDate r, operator_ge); (schemas.endDate r, operator_le)].

(** ORDER BY date, letter_code *)
Definition columns : relation models.CurrencyRate :=
  sql.lex (sql.asc datetime.le models.date)
          (sql.asc sql.string_le models.letter_code).

#[global] Instance columns_dec : RelDecision columns.
Proof. unfold columns. apply _. Defined.

Definition select_entries (r : schemas.Request)
    : M (list models.CurrencyRate) :=
  emit (Execute (SelectRange (schemas.startDate r) (schemas.endDate r))) ;;
  w ← get_world ;
  mret (sql.order_by columns (sql.where_ (clauses r) (currency_rates w))).

Definition handle_entries (ext : Externals) (r : schemas.Request)
    (client : option aiobotocore.AioBaseClient)
    (scalars : list models.CurrencyRate) : M result :=
  match scalars with
  | [] =>
      resp ← lift (schemas.Response_of ext r None (Some "No results")) ;
      mret (Json resp)
  | _ :: _ =>
      handler_class ←
        match schemas.available_output_formats !! schemas.outputFormat r with
        | Some c => mret c
        | None => raise KeyError
        end ;
      handler ← lift (handlers.__init__ handler_class scalars client
                        (schemas.isBackup r)) ;
      handler ← handlers.upload_contents ext handler ;
      if schemas.isBackup r then mret (StatusOnly HTTP_204_NO_CONTENT)
      else
        '(shortened_presigned_url, handler) ←
          handlers.generate_url ext handler ;
        resp ← lift (schemas.Response_of ext r
                       (Some shortened_presigned_url) None) ;
        mret (Json resp)
  end.

Definition get_currency_rates (ext : Externals) (r : schemas.Request)
    (client : option aiobotocore.AioBaseClient) : M result :=
  if logfire_token ext then
    scalars ← span "Select entries" (select_entries r) ;
    span "Pick a handler, handle entries, return a response"
      (handle_entries ext r client scalars)
  else
    scalars ← select_entries r ;
    handle_entries ext r client scalars.

(** GET /currency-rates as FastAPI serves it: the query parameters are
    validated into a [Request] and the client dependency is resolved
    before the endpoint function runs. *)
Definition GET_currency_rates (ext : Externals) (q : schemas.Query)
    : M result :=
  r ← lift (schemas.Request_validate ext q) ;
  get_currency_rates ext r (botocore_client.get_async_client ext).

(** The subquery of [get_latest_rates]:
    SELECT DISTINCT ON (letter_code) letter_code, date, exchange_rate
    ORDER BY letter_code, date DESC. *)
Definition subquery (table : list models.CurrencyRate)
    : list (string * datetime.date * models.float) :=
  map (λ row, (models.letter_code row, models.date row,
               models.exchange_rate row))
      (sql.distinct_on models.letter_code
         (sql.order_by
            (sql.lex (sql.asc sql.string_le models.letter_code)
                     (sql.desc datetime.le models.date))
            table)).

Definition join_condition (row : models.CurrencyRate)
    (c : string * datetime.date * models.float) : bool :=
  bool_decide (models.letter_code row = c.1.1)
  && bool_decide (models.date row = c.1.2)
  && bool_decide (models.exchange_rate row = c.2).

(** The main statement, with the optional IN filter.  It has no ORDER
    BY: the order of the list is the model's, not the statement's. *)
Definition latest_statement (currency_codes : option (list string))
    (table : list models.CurrencyRate) : list models.CurrencyRate :=
  let joined := sql.join join_condition table (subquery table) in
  match currency_codes with
  | Some (c :: cs) =>
      sql.where_
        [λ row, bool_decide (models.letter_code row ∈ c :: cs)] joined
  | _ => joined
  end.

Inductive json :=
| JStr (s : string)
| JInt (z : Z)
| JFloat (q : models.float).

Definition rate_dict (rate : models.CurrencyRate) : list (string * json) :=
  [("digital_code", JStr (models.digital_code rate));
   ("letter_code", JStr (models.letter_code rate));
   ("units", JInt (models.units rate));
   ("currency_name", JStr (models.currency_name rate));
   ("exchange_rate", JFloat (models.exchange_rate rate));
   ("date", JStr (datetime.isoformat (models.date rate)));
   ("source", JStr (models.source rate))].

Definition select_latest (currency_codes : option (list string))
    : M (list models.CurrencyRate) :=
  emit (Execute (SelectLatest currency_codes)) ;;
  w ← get_world ;
  mret (latest_statement currency_codes (currency_rates w)).

(** The value under the key "rates" of the returned object. *)
Definition get_latest_rates (ext : Externals)
    (currency_codes : option (list string))
    : M (list (list (string * json))) :=
  rates ← (if logfire_token ext
           then span "Get latest rates" (select_latest currency_codes)
           else select_latest currency_codes) ;
  mret (map rate_dict rates).

(** The table after a committed statement.  The trace keeps the SELECTs
    and the export calls; a committed mutation shows in the table. *)
Definition set_currency_rates (rows : list models.CurrencyRate) : M unit :=
  λ w,
    (inr tt,
     {| currency_rates := rows; objects := objects w;
        urandom := urandom w; drawn := drawn w; trace := trace w |}).

(** [raise HTTPException(status_code=...)] *)
Inductive HTTPException := mkHTTPException (status_code : Z).

Definition HTTP_403_FORBIDDEN : Z := 403.

(** [api_token(token)] for the value of the API-Token header;
    [API_TOKEN] is the process variable, absent or set. *)
Definition api_token (API_TOKEN : option string) (token : string)
    : HTTPException + unit :=
  let expected_token := default "default_token_for_development" API_TOKEN in
  if negb (String.eqb token expected_token)
  then inl (mkHTTPException HTTP_403_FORBIDDEN)
  else inr tt.

(** DELETE FROM currency_rates WHERE id IN (delete_ids) *)
Definition delete_statement (delete_ids : list Z)
    (table : list models.CurrencyRate) : list models.CurrencyRate :=
  List.filter (λ row, negb (bool_decide (models.id row ∈ delete_ids))) table.

(** Whether a value fits the 32-bit [Integer] column [id] of models.py. *)
Definition int4 (i : Z) : bool := ((- 2 ^ 31 <=? i) && (i <? 2 ^ 31))%Z.

(** [session.execute(statement); session.commit()]: the ids are bound as
    parameters of the column's type, and the driver refuses the statement
    when one of them does not fit; nothing is deleted then. *)
Definition delete_entries (delete_ids : list Z) : M unit :=
  if forallb int4 delete_ids then
    w ← get_world ;
    set_currency_rates (delete_statement delete_ids (currency_rates w))
  else raise DBAPIError.

Definition delete_currency_rates (ext : Externals) (delete_ids : list Z)
    (client : option aiobotocore.AioBaseClient) : M unit :=
  if logfire_token ext then
    span "Delete entries and commit" (delete_entries delete_ids) ;;
    span "Make a database backup"
      (_ ← get_currency_rates ext backup_request client ; mret tt)
  else
    delete_entries delete_ids ;;
    _ ← get_currency_rates ext backup_request client ;
    mret tt.

(** DELETE /currency-rates as FastAPI serves it, for a request that
    carries the API-Token header: the [api_token] dependency runs before
    the endpoint function. *)
Definition DELETE_currency_rates (ext : Externals) (API_TOKEN : option string)
    (token : string) (delete_ids : list Z) : M (HTTPException + unit) :=
  match api_token API_TOKEN token with
  | inl e => mret (inl e)
  | inr _ =>
      delete_currency_rates ext delete_ids
        (botocore_client.get_async_client ext) ;;
      mret (inr tt)
  end.

End main.

(** ** Specification-side vocabulary *)

Module spec.

(** The closed date interval of a query; an absent bound leaves its
    side open. *)
Definition in_range (lo hi : option datetime.date) (d : datetime.date)
    : Prop :=
  match lo with Some l => datetime.le l d | None => True end
  ∧ match hi with Some h => datetime.le d h | None => True end.

#[global] Instance in_range_dec lo hi d : Decision (in_range lo hi d).
Proof. unfold in_range. destruct lo, hi; apply _. Defined.

(** "Ordered by date ascending then letter code ascending". *)
Definition date_then_code (x y : models.CurrencyRate) : Prop :=
  (datetime.le (models.date x) (models.date y)
     ∧ models.date x ≠ models.date y)
  ∨ (models.date x = models.date y
     ∧ String.leb (models.letter_code x) (models.letter_code y) = true).

(** The maximum date present among the records of a code. *)
Definition is_latest_of (table : list models.CurrencyRate)
    (row : models.CurrencyRate) : Prop :=
  ∀ other, other ∈ table →
    models.letter_code other = models.letter_code row →
    datetime.le (models.date other) (models.date row).

(** The cells of a record under the declared columns. *)
Definition row_values (scalar : models.CurrencyRate) : list pd.value :=
  [pd.VInt (models.id scalar);
   pd.VStr (models.digital_code scalar);
   pd.VStr (models.letter_code scalar);
   pd.VInt (models.units scalar);
   pd.VStr (models.currency_name scalar);
   pd.VFloat (models.exchange_rate scalar);
   pd.VDate (models.date scalar);
   pd.VDateTime (models.timestamp scalar);
   pd.VStr (models.source scalar)].

(** The TabularBuffer of a record sequence. *)
Definition tabular (scalars : list models.CurrencyRate) : pd.DataFrame :=
  {| pd.columns := models.currency_columns;
     pd.rows := map row_values scalars |}.

(** Link generation and shortening. *)
Definition is_link_event (e : event) : bool :=
  match e with
  | GeneratePresignedUrl _ _ | Shorten _ => true
  | _ => false
  end.

(** Encoding and publishing. *)
Definition is_export_event (e : event) : bool :=
  match e with
  | Encode _ | PutObject _ _ _ _ => true
  | _ => false
  end.

(** The codes a latest-rates call asks for: all of them when the
    parameter is absent or empty. *)
Definition requested (currency_codes : option (list string))
    (code : string) : Prop :=
  match currency_codes with
  | Some (c :: cs) => code ∈ c :: cs
  | _ => True
  end.

#[global] Instance requested_dec codes code :
  Decision (requested codes code).
Proof. unfold requested. destruct codes as [[|c cs]|]; apply _. Defined.

(** What the subquery keeps of a record. *)
Definition reading (row : models.CurrencyRate)
    : string * datetime.date * models.float :=
  (models.letter_code row, models.date row, models.exchange_rate row).

(** The key of an ad-hoc export whose handler draws in world [w]. *)
Definition export_key (w : World) (cls : handlers.Maker) : string :=
  uuid.str (uuid.uuid4 (urandom w (drawn w))) +:+ "."
    +:+ handlers.extension cls.

(** The 122 bits of a 16-byte draw that [uuid4] keeps: all but the two
    variant bits (62, 63) and the four version bits (76 to 79). *)
Definition random_bits (r : Z) : Z :=
  Z.land (r mod 2 ^ 128)
    (Z.lnot (Z.lor (Z.shiftl 0xc000 48) (Z.shiftl 0xf000 64))).

(** The key of a backup. *)
Definition backup_key (cls : handlers.Maker) : string :=
  "currency_rates_db_backup" +:+ "." +:+ handlers.extension cls.

End spec.

(** ** A concrete deployment and store, for closed examples *)

Module sample.

Definition digit (c : ascii) : option Z :=
  let n := nat_of_ascii c in
  if ((48 <=? n) && (n <=? 57))%nat then Some (Z.of_nat n - 48) else None.

Definition number (s : string) : option Z :=
  fold_left (λ acc c, a ← acc ; d ← digit c ; Some (10 * a + d))
            (list_ascii_of_string s) (Some 0).

(** Reads exactly eight digits as year, month, day: how
    [strptime(value, "%Y%m%d")] reads such a text. *)
Definition strptime_compact (value format : string)
    : option datetime.date :=
  if String.eqb format "%Y%m%d" && (String.length value =? 8)%nat then
    y ← number (substring 0 4 value) ;
    m ← number (substring 4 2 value) ;
    d ← number (substring 6 2 value) ;
    Some (datetime.mkdate y m d)
  else None.

Definition encode_rows (tag : Byte.byte) (df : pd.DataFrame) : exn + bytes :=
  inr (tag :: map (λ _, Byte.x0a) (pd.rows df)).

(** Object storage configured. *)
Definition ext : Externals :=
  {| LOGFIRE_TOKEN := "";
     OBS_ACCESS_KEY := Some "access"; OBS_SECRET_KEY := Some "secret";
     OBS_REGION := Some "ru-moscow-1"; OBS_ENDPOINT := Some "https://obs";
     OBS_BUCKET := Some "rates";
     strptime := strptime_compact;
     to_csv := encode_rows Byte.x63; to_json := encode_rows Byte.x6a;
     to_parquet := encode_rows Byte.x70; to_excel := encode_rows Byte.x78;
     s3_put_object := λ _ _, None;
     s3_presigned_url := λ b k, inr ("https://obs/" +:+ b +:+ "/" +:+ k);
     spoo_shorten := λ u, inr "https://spoo.me/abc" |}.

(** No object-storage setting present: "S3 disabled". *)
Definition ext_disabled : Externals :=
  {| LOGFIRE_TOKEN := "";
     OBS_ACCESS_KEY := None; OBS_SECRET_KEY := None;
     OBS_REGION := None; OBS_ENDPOINT := None; OBS_BUCKET := None;
     strptime := strptime_compact;
     to_csv := encode_rows Byte.x63; to_json := encode_rows Byte.x6a;
     to_parquet := encode_rows Byte.x70; to_excel := encode_rows Byte.x78;
     s3_put_object := λ _ _, None;
     s3_presigned_url := λ b k, inr ("https://obs/" +:+ b +:+ "/" +:+ k);
     spoo_shorten := λ u, inr "https://spoo.me/abc" |}.

Definition day (y m d : Z) : datetime.date := datetime.mkdate y m d.

Definition rate (id : Z) (digital letter : string) (d : datetime.date)
    (value : Q) : models.CurrencyRate :=
  {| models.id := id; models.digital_code := digital;
     models.letter_code := letter; models.units := 1;
     models.currency_name := letter; models.exchange_rate := Q2Qc value;
     models.date := d;
     models.timestamp := datetime.mkdatetime d 11 30 0 0;
     models.source := "cbr.ru" |}.

Definition oldest : models.CurrencyRate :=
  rate 1 "840" "USD" (day 2023 12 30) (897 # 10).

Definition later : list models.CurrencyRate :=
  [rate 2 "978" "EUR" (day 2024 1 9) (983 # 10);
   rate 3 "840" "USD" (day 2024 1 9) (901 # 10);
   rate 4 "156" "CNY" (day 2024 1 20) (125 # 10);
   rate 5 "840" "USD" (day 2024 2 1) (905 # 10)].

Definition table : list models.CurrencyRate := oldest :: later.

(** The same submission stored twice. *)
Definition table_resubmitted : list models.CurrencyRate :=
  [rate 1 "840" "USD" (day 2024 1 9) (901 # 10);
   rate 2 "840" "USD" (day 2024 1 9) (901 # 10)].

(** A handler as [__init__] leaves it. *)
Definition handler (is_backup : bool) : handlers.ScalarsHandler :=
  {| handlers.cls := handlers.CSVMaker; handlers.df := spec.tabular table;
     handlers.client := Some aiobotocore.s3_client;
     handlers._is_backup := is_backup; handlers._body := io.empty;
     handlers.body_cached := false; handlers.key_cached := None |}.

Definition world (rows : list models.CurrencyRate) : World :=
  {| currency_rates := rows; objects := ∅;
     urandom := λ n, 0x0123456789abcdef0123456789abcdef * (Z.of_nat n + 1);
     drawn := O; trace := [] |}.

(** A deployment with storage configured whose bucket setting, writers,
    upload answer and shortener answer are as given. *)
Definition deployment (bucket : option string)
    (write : pd.DataFrame → exn + bytes) (put : option exn)
    (shorten : exn + string) : Externals :=
  {| LOGFIRE_TOKEN := "logfire-token";
     OBS_ACCESS_KEY := Some "access"; OBS_SECRET_KEY := Some "secret";
     OBS_REGION := Some "ru-moscow-1"; OBS_ENDPOINT := Some "https://obs";
     OBS_BUCKET := bucket;
     strptime := strptime_compact;
     to_csv := write; to_json := write; to_parquet := write;
     to_excel := write;
     s3_put_object := λ _ _, put;
     s3_presigned_url := λ b k, inr ("https://obs/" +:+ b +:+ "/" +:+ k);
     spoo_shorten := λ u, shorten |}.

(** A world whose first two draws differ in bit 62 only, one of the
    bits [uuid4] overwrites. *)
Definition world_colliding (rows : list models.CurrencyRate) : World :=
  {| currency_rates := rows; objects := ∅;
     urandom := λ n, 0x0123456789abcdef0123456789abcdef
                     + Z.of_nat n * 2 ^ 62;
     drawn := O; trace := [] |}.

Definition export_request : schemas.Request :=
  {| schemas.startDate := None; schemas.endDate := None;
     schemas.outputFormat := "json"; schemas.isBackup := false |}.

End sample.

(** * Properties *)

(** ** Orders used by ORDER BY *)

Section orders.

Import OrderedTypeEx.

Lemma string_le_alt (a b : string) :
  sql.string_le a b ↔ a = b ∨ String_as_OT.lt a b.
Proof.
  unfold sql.string_le, String.leb.
  destruct (String.compare a b) eqn:E.
  - apply String_as_OT.cmp_eq in E. split; auto.
  - apply String_as_OT.cmp_lt in E. split; auto.
  - split; [discriminate|]. intros [->|H].
    + pose proof (proj2 (String_as_OT.cmp_eq b b) eq_refl) as Hb.
      unfold String_as_OT.cmp in Hb. congruence.
    + apply String_as_OT.cmp_lt in H. unfold String_as_OT.cmp in H.
      congruence.
Qed.

#[global] Instance string_le_refl : Reflexive sql.string_le.
Proof. intros a. apply string_le_alt. by left. Qed.

#[global] Instance string_le_trans : Transitive sql.string_le.
Proof.
  intros a b c Hab Hbc. apply string_le_alt in Hab, Hbc.
  apply string_le_alt.
  destruct Hab as [->|Hab]; [done|].
  destruct Hbc as [<-|Hbc]; [by right|].
  right. eapply String_as_OT.lt_trans; eauto.
Qed.

#[global] Instance string_le_total : Total sql.string_le.
Proof. intros a b. apply String.leb_total. Qed.

#[global] Instance string_le_antisym : AntiSymm (=) sql.string_le.
Proof. intros a b. apply String.leb_antisym. Qed.

#[global] Instance date_le_refl : Reflexive datetime.le.
Proof. intros a. unfold datetime.le. lia. Qed.

#[global] Instance date_le_trans : Transitive datetime.le.
Proof. intros a b c. unfold datetime.le. lia. Qed.

#[global] Instance date_le_total : Total datetime.le.
Proof. intros a b. unfold datetime.le. lia. Qed.

#[global] Instance date_le_antisym : AntiSymm (=) datetime.le.
Proof.
  intros [y1 m1 d1] [y2 m2 d2]. unfold datetime.le. simpl.
  intros H1 H2. f_equal; lia.
Qed.

Context {A K : Type} (le : relation K) (key : A → K).

#[global] Instance asc_trans `{!Transitive le} : Transitive (sql.asc le key).
Proof. intros x y z. unfold sql.asc. apply transitivity. Qed.

#[global] Instance asc_total `{!Total le} : Total (sql.asc le key).
Proof. intros x y. unfold sql.asc. apply total, _. Qed.

#[global] Instance desc_trans `{!Transitive le} : Transitive (sql.desc le key).
Proof. intros x y z. unfold sql.desc. intros ??. by etrans. Qed.

#[global] Instance desc_total `{!Total le} : Total (sql.desc le key).
Proof. intros x y. unfold sql.desc. apply total, _. Qed.

End orders.

Section lex_order.

Context {A : Type} (R1 R2 : relation A).
Context `{!RelDecision R1, !Transitive R1, !Total R1}.
Context `{!Transitive R2, !Total R2}.

#[global] Instance lex_total : Total (sql.lex R1 R2).
Proof.
  intros x y. unfold sql.lex.
  destruct (decide (R1 x y)) as [Hxy|Hxy], (decide (R1 y x)) as [Hyx|Hyx].
  - destruct (total R2 x y); [left | right]; right; auto.
  - left; left; auto.
  - right; left; auto.
  - destruct (total R1 x y); contradiction.
Qed.

#[global] Instance lex_trans : Transitive (sql.lex R1 R2).
Proof.
  intros x y z. unfold sql.lex.
  intros [[Hxy Hnyx]|(Hxy & Hyx & H2xy)] [[Hyz Hnzy]|(Hyz & Hzy & H2yz)].
  - left. split; [by etrans|]. intros Hzx. apply Hnyx. by etrans.
  - left. split; [by etrans|]. intros Hzx. apply Hnyx. by etrans.
  - left. split; [by etrans|]. intros Hzx. apply Hnzy. by etrans.
  - right. split; [by etrans|]. split; by etrans.
Qed.

End lex_order.

(** ** The range query of GET /currency-rates *)

Lemma clauses_in_range (r : schemas.Request) (row : models.CurrencyRate) :
  forallb (λ c, c row) (main.clauses r)
  = bool_decide (spec.in_range (schemas.startDate r) (schemas.endDate r)
                   (models.date row)).
Proof.
  unfold main.clauses, spec.in_range, main.operator_ge, main.operator_le.
  destruct (schemas.startDate r) as [lo|], (schemas.endDate r) as [hi|];
    simpl; repeat case_bool_decide; simpl; try reflexivity; tauto.
Qed.

Lemma where_clauses_in_range (r : schemas.Request)
    (table : list models.CurrencyRate) :
  sql.where_ (main.clauses r) table
  = List.filter
      (λ row, bool_decide (spec.in_range (schemas.startDate r)
                             (schemas.endDate r) (models.date row)))
      table.
Proof.
  unfold sql.where_. apply List.filter_ext. intros row.
  apply clauses_in_range.
Qed.

Lemma columns_date_then_code (x y : models.CurrencyRate) :
  main.columns x y ↔ spec.date_then_code x y.
Proof.
  unfold main.columns, sql.lex, sql.asc, spec.date_then_code, sql.string_le.
  split.
  - intros [[Hxy Hyx]|(Hxy & Hyx & Hc)].
    + left. split; [done|]. intros E. rewrite E in Hyx. by apply Hyx.
    + right. split; [|done]. by apply (anti_symm datetime.le).
  - intros [[Hxy Hne]|[E Hc]].
    + left. split; [done|]. intros Hyx. apply Hne.
      by apply (anti_symm datetime.le).
    + right. rewrite E. done.
Qed.

Lemma StronglySorted_weaken {A} (R1 R2 : relation A) (l : list A) :
  (∀ x y, R1 x y → R2 x y) → StronglySorted R1 l → StronglySorted R2 l.
Proof.
  intros Himp. induction 1 as [|x l Hl IH Hx]; constructor; [done|].
  eapply Forall_impl; [exact Hx|]. intros y. apply Himp.
Qed.

Lemma select_entries_run (r : schemas.Request) (w : World) :
  main.select_entries r w
  = (inr (sql.order_by main.columns
            (sql.where_ (main.clauses r) (currency_rates w))),
     {| currency_rates := currency_rates w; objects := objects w;
        urandom := urandom w; drawn := drawn w;
        trace := trace w
                   ++ [Execute (SelectRange (schemas.startDate r)
                                            (schemas.endDate r))] |}).
Proof. reflexivity. Qed.

(** C7: the statement of GET /currency-rates returns exactly the stored
    records whose date lies in the closed interval given by the bounds
    that are present (a missing bound leaves its side open), each as often
    as it is stored, ordered by date ascending and, among equal dates, by
    letter code ascending. *)
Theorem date_range_filter_sorted (r : schemas.Request) (w : World) :
  ∃ rows,
    (main.select_entries r w).1 = inr rows
    ∧ rows ≡ₚ List.filter
                (λ row, bool_decide
                          (spec.in_range (schemas.startDate r)
                             (schemas.endDate r) (models.date row)))
                (currency_rates w)
    ∧ (∀ row, row ∈ rows ↔
         row ∈ currency_rates w
         ∧ spec.in_range (schemas.startDate r) (schemas.endDate r)
             (models.date row))
    ∧ StronglySorted spec.date_then_code rows.
Proof.
  rewrite select_entries_run. eexists. split; [reflexivity|].
  rewrite where_clauses_in_range. unfold sql.order_by.
  split; [apply merge_sort_Permutation|]. split.
  - intros row. rewrite merge_sort_Permutation.
    rewrite list_elem_of_In, List.filter_In, bool_decide_eq_true.
    by rewrite <- list_elem_of_In.
  - eapply StronglySorted_weaken;
      [|apply (StronglySorted_merge_sort main.columns)].
    intros x y Hxy. by apply columns_date_then_code.
Qed.

(** The bounds of the specification's example, read from the query
    string, keep the January records of the sample store in date order. *)
Example january_2024 :
  (main.GET_currency_rates sample.ext
     {| schemas.q_startDate := Some "20240101";
        schemas.q_endDate := Some "20240131";
        schemas.q_outputFormat := Some "csv"; schemas.q_isBackup := None |}
     (sample.world sample.table)).2.(trace)
  !! 0%nat
  = Some (Execute (SelectRange (Some (sample.day 2024 1 1))
                               (Some (sample.day 2024 1 31))))
  ∧ map models.id
      (sql.order_by main.columns
         (sql.where_
            (main.clauses
               {| schemas.startDate := Some (sample.day 2024 1 1);
                  schemas.endDate := Some (sample.day 2024 1 31);
                  schemas.outputFormat := "csv"; schemas.isBackup := false |})
            sample.table))
    = [2; 3; 4].
Proof. split; vm_compute; reflexivity. Qed.

(** ** The rows of GET /currency-rates/latest *)


Lemma isoformat_shape (d : datetime.date) :
  String.length (datetime.isoformat d) = 10%nat
  ∧ String.get 4 (datetime.isoformat d) = Some "-"%char
  ∧ String.get 7 (datetime.isoformat d) = Some "-"%char.
Proof. repeat split; reflexivity. Qed.



(** ** Output formats and request validation *)

Lemma available_output_formats_eq :
  schemas.available_output_formats
  = <["xlsx" := handlers.XlsxMaker]>
      (<["parquet" := handlers.ParquetMaker]>
         (<["json" := handlers.JSONMaker]>
            (<["csv" := handlers.CSVMaker]> ∅))).
Proof. reflexivity. Qed.

Lemma available_output_formats_lookup (fmt : string) (cls : handlers.Maker) :
  schemas.available_output_formats !! fmt = Some cls
  ↔ handlers.extension cls = fmt.
Proof.
  rewrite available_output_formats_eq. rewrite !lookup_insert, lookup_empty.
  repeat case_decide; subst; destruct cls; simpl; split;
    intros; simplify_eq; try reflexivity; congruence.
Qed.

Lemma outputFormats_spec (fmt : string) :
  schemas.outputFormats fmt = true ↔ ∃ cls, handlers.extension cls = fmt.
Proof.
  unfold schemas.outputFormats. rewrite bool_decide_eq_true.
  unfold is_Some. split; intros [cls H]; exists cls;
    by apply available_output_formats_lookup.
Qed.

Lemma extension_inj (c1 c2 : handlers.Maker) :
  handlers.extension c1 = handlers.extension c2 → c1 = c2.
Proof. destruct c1, c2; simpl; intros; simplify_eq; reflexivity. Qed.

Lemma Request_validate_format (ext : Externals) (q : schemas.Query)
    (r : schemas.Request) :
  schemas.Request_validate ext q = inr r →
  schemas.outputFormat r = default "parquet" (schemas.q_outputFormat q)
  ∧ schemas.outputFormats (schemas.outputFormat r) = true.
Proof.
  unfold schemas.Request_validate. intros H.
  repeat case_match; simplify_eq; simpl.
  split; [reflexivity|]. by apply negb_false_iff.
Qed.

(** C8: a request whose output format is none of the handlers'
    extensions is answered with a validation error while the world is
    exactly as it was (no statement executed, nothing encoded or
    uploaded); the accepted values are the four extensions, each bound
    to one handler class, different values to different classes; and a
    request that passes validation carries an accepted value. *)
Theorem unknown_format_rejected_first :
  (∀ (ext : Externals) (q : schemas.Query) (w : World),
     (∀ cls, handlers.extension cls
             ≠ default "parquet" (schemas.q_outputFormat q)) →
     ∃ field,
       main.GET_currency_rates ext q w = (inl (ValidationError field), w))
  ∧ (∀ fmt,
       schemas.outputFormats fmt = true →
       ∃ cls,
         schemas.available_output_formats !! fmt = Some cls
         ∧ handlers.extension cls = fmt
         ∧ ∀ cls', schemas.available_output_formats !! fmt = Some cls' →
                   cls' = cls)
  ∧ (∀ fmt,
       schemas.outputFormats fmt = true
       ↔ fmt ∈ ["csv"; "json"; "parquet"; "xlsx"])
  ∧ (∀ ext q r,
       schemas.Request_validate ext q = inr r →
       schemas.outputFormats (schemas.outputFormat r) = true).
Proof.
  split; [|split; [|split]].
  - intros ext q w Hnone.
    assert (schemas.outputFormats
              (default "parquet" (schemas.q_outputFormat q)) = false) as Hf.
    { apply not_true_is_false. intros [cls H]%outputFormats_spec.
      by apply (Hnone cls). }
    unfold main.GET_currency_rates, schemas.Request_validate.
    rewrite Hf. simpl.
    destruct (schemas.request_date ext "startDate" _) as [e|lo] eqn:E1.
    + unfold schemas.request_date in E1.
      destruct (schemas.q_startDate q) as [s|]; simpl in E1;
        [destruct (strptime ext s _)|]; simplify_eq.
      by eexists.
    + destruct (schemas.request_date ext "endDate" _) as [e|hi] eqn:E2.
      * unfold schemas.request_date in E2.
        destruct (schemas.q_endDate q) as [s|]; simpl in E2;
          [destruct (strptime ext s _)|]; simplify_eq.
        by eexists.
      * by eexists.
  - intros fmt [cls H]%outputFormats_spec. exists cls.
    split; [by apply available_output_formats_lookup|]. split; [done|].
    intros cls' H'%available_output_formats_lookup.
    apply extension_inj. congruence.
  - intros fmt. rewrite outputFormats_spec. split.
    + intros [cls <-]. destruct cls; simpl; set_solver.
    + intros H.
      repeat (apply elem_of_cons in H as [->|H]);
        [by exists handlers.CSVMaker | by exists handlers.JSONMaker
        | by exists handlers.ParquetMaker | by exists handlers.XlsxMaker
        | by apply elem_of_nil in H].
  - intros ext q r H. by apply Request_validate_format in H as [_ ?].
Qed.

(** The theorem at a request for the format "xml". *)
Lemma unknown_format_rejected_first_witness :
  ∃ field,
    main.GET_currency_rates sample.ext
      {| schemas.q_startDate := None; schemas.q_endDate := None;
         schemas.q_outputFormat := Some "xml"; schemas.q_isBackup := None |}
      (sample.world sample.table)
    = (inl (ValidationError field), sample.world sample.table).
Proof.
  apply (proj1 unknown_format_rejected_first).
  intros cls. destruct cls; simpl; discriminate.
Defined.

(** ** Materialization: the handler's DataFrame *)

Lemma fresh_labels_known (seen ks : list string) :
  Forall (λ k, k ∈ seen) ks → pd.fresh_labels seen ks = [].
Proof.
  induction 1 as [|k ks Hk _ IH]; simpl; [reflexivity|].
  by rewrite bool_decide_eq_true_2.
Qed.

Lemma dict_keys (scalar : models.CurrencyRate) :
  map fst (handlers.__dict__ scalar)
  = "_sa_instance_state" :: models.currency_columns.
Proof. reflexivity. Qed.

Lemma from_records_columns_stable (scalars : list models.CurrencyRate) :
  fold_left (λ acc r, acc ++ pd.fresh_labels acc (map fst r))
    (map handlers.__dict__ scalars)
    ("_sa_instance_state" :: models.currency_columns)
  = "_sa_instance_state" :: models.currency_columns.
Proof.
  induction scalars as [|s ss IH]; [reflexivity|].
  rewrite map_cons. cbn [fold_left].
  rewrite fresh_labels_known, app_nil_r; [exact IH|].
  rewrite dict_keys. apply Forall_forall. auto.
Qed.

Lemma from_records_columns (s : models.CurrencyRate)
    (ss : list models.CurrencyRate) :
  pd.columns (pd.from_records (map handlers.__dict__ (s :: ss)))
  = "_sa_instance_state" :: models.currency_columns.
Proof.
  unfold pd.from_records. cbn [pd.columns map fold_left].
  change ([] ++ pd.fresh_labels [] (map fst (handlers.__dict__ s)))
    with ("_sa_instance_state" :: models.currency_columns).
  apply from_records_columns_stable.
Qed.

Lemma init_nonempty (cls : handlers.Maker) (s : models.CurrencyRate)
    (ss : list models.CurrencyRate)
    (client : option aiobotocore.AioBaseClient) (is_backup : bool) :
  handlers.__init__ cls (s :: ss) client is_backup
  = inr {| handlers.cls := cls; handlers.df := spec.tabular (s :: ss);
           handlers.client := client; handlers._is_backup := is_backup;
           handlers._body := io.empty; handlers.body_cached := false;
           handlers.key_cached := None |}.
Proof.
  unfold handlers.__init__, pd.getitem.
  rewrite from_records_columns.
  change (forallb _ models.currency_columns) with true. cbv iota.
  do 2 f_equal. unfold spec.tabular. f_equal.
  unfold pd.from_records. cbn [pd.rows].
  pose proof (from_records_columns s ss) as Hc.
  unfold pd.from_records in Hc. cbn [pd.columns] in Hc. rewrite Hc.
  rewrite !map_map. apply map_ext. intros scalar. reflexivity.
Qed.

Lemma init_empty (cls : handlers.Maker)
    (client : option aiobotocore.AioBaseClient) (is_backup : bool) :
  handlers.__init__ cls [] client is_backup = inl KeyError.
Proof. reflexivity. Qed.

(** ** The export pipeline: what each step sends out *)

Ltac unfold_handler :=
  unfold handlers.upload_contents, handlers.generate_url, handlers.body,
    handlers.key, handlers.client_attr, env, aiobotocore.put_object,
    aiobotocore.generate_presigned_url, py_spoo_url.shorten, span, lift,
    raise, emit, os_urandom16, store_object, get_world, record_events,
    mbind, mret, M_bind, M_ret.

Ltac handler_fields :=
  cbn [handlers.with_body handlers.with_key handlers.client
       handlers.key_cached handlers._is_backup handlers.cls
       handlers.body_cached handlers._body handlers.df snd fst io.read io.seek
       io.tell io.getvalue trace].

Ltac in_events H :=
  repeat (apply elem_of_cons in H as [H|H]; [try discriminate H|]);
  try (by apply elem_of_nil in H).

Ltac find_event := first [by left | right; find_event].

Lemma get_currency_rates_unfold ext r client w :
  main.get_currency_rates ext r client w
  = main.handle_entries ext r client
      (sql.order_by main.columns (sql.where_ (main.clauses r) (currency_rates w)))
      (record_events w [Execute (SelectRange (schemas.startDate r) (schemas.endDate r))]).
Proof.
  unfold main.get_currency_rates. destruct (main.logfire_token ext); reflexivity.
Qed.

Lemma upload_contents_spec ext self w :
  ∃ evs,
    trace (handlers.upload_contents ext self w).2 = trace w ++ evs
    ∧ Forall (λ e, spec.is_export_event e = true) evs
    ∧ ∀ self', (handlers.upload_contents ext self w).1 = inr self' →
        ∃ b k,
          handlers.key_cached self' = Some k
          ∧ OBS_BUCKET ext = Some b
          ∧ (∀ b' k' d ct, PutObject b' k' d ct ∈ evs → b' = b ∧ k' = k)
          ∧ (∃ d, PutObject b k d (handlers.content_type (handlers.cls self))
                  ∈ evs).
Proof.
  unfold_handler.
  destruct (handlers.body_cached self) eqn:Hbc;
  [|destruct (handlers.writer ext (handlers.cls self) (handlers.df self))
      as [e|data] eqn:Hw];
  handler_fields;
  destruct (handlers.client self) as [c|] eqn:Hc;
  destruct (OBS_BUCKET ext) as [b|] eqn:Hb;
  destruct (handlers.key_cached self) as [k|] eqn:Hk;
  destruct (handlers._is_backup self) eqn:Hib;
  handler_fields.
  all: try match goal with
           | |- context [s3_put_object ?x ?b ?k] =>
               destruct (s3_put_object x b k) eqn:Hput
           end.
  all: handler_fields; rewrite <- ?app_assoc.
  all: eexists; split; [reflexivity || (rewrite app_nil_r; reflexivity)|].
  all: split; [repeat constructor|].
  all: intros self' Hs; try discriminate Hs.
  all: injection Hs as <-; handler_fields.
  all: eexists _, _; split; [first [reflexivity|eassumption]|];
    split; [reflexivity|].
  all: split; [intros b' k' d ct H; in_events H; by simplify_eq|].
  all: eexists; find_event.
Qed.

Lemma generate_url_spec ext self w k :
  handlers.key_cached self = Some k →
  ∃ evs,
    trace (handlers.generate_url ext self w).2 = trace w ++ evs
    ∧ Forall (λ e, spec.is_link_event e = true) evs
    ∧ (∀ b' k', GeneratePresignedUrl b' k' ∈ evs →
         OBS_BUCKET ext = Some b' ∧ k' = k)
    ∧ ∀ u self', (handlers.generate_url ext self w).1 = inr (u, self') →
        ∃ long, Shorten long ∈ evs ∧ spoo_shorten ext long = inr u.
Proof.
  intros Hk. unfold_handler. rewrite Hk.
  destruct (handlers.client self) as [c|] eqn:Hc;
  destruct (OBS_BUCKET ext) as [b|] eqn:Hb; handler_fields.
  all: try match goal with
           | |- context [s3_presigned_url ?x ?b ?k] =>
               destruct (s3_presigned_url x b k) as [e1|long] eqn:Hpre
           end; handler_fields.
  all: try match goal with
           | |- context [spoo_shorten ?x ?u] =>
               destruct (spoo_shorten x u) as [e2|short] eqn:Hsh
           end; handler_fields.
  all: rewrite <- ?app_assoc.
  all: eexists; split; [reflexivity || (rewrite app_nil_r; reflexivity)|].
  all: split; [repeat constructor|].
  all: split; [intros b' k' H; in_events H; by simplify_eq|].
  all: intros u self' Hs; try discriminate Hs.
  injection Hs as <- <-. eexists. split; [find_event|done].
Qed.

Lemma Response_of_fields ext r u c resp :
  schemas.Response_of ext r u c = inr resp →
  schemas.url resp = u ∧ schemas.comment resp = c.
Proof.
  unfold schemas.Response_of. intros H.
  destruct (schemas.response_date ext "startDate" _); [discriminate|].
  destruct (schemas.response_date ext "endDate" _); [discriminate|].
  destruct (negb _); [discriminate|]. by injection H as <-.
Qed.

Lemma get_currency_rates_events ext r client w :
  ∃ evs,
    trace (main.get_currency_rates ext r client w).2
    = trace w
        ++ Execute (SelectRange (schemas.startDate r) (schemas.endDate r))
           :: evs
    ∧ (∀ b k d ct b' k',
         PutObject b k d ct ∈ evs → GeneratePresignedUrl b' k' ∈ evs →
         b' = b ∧ k' = k)
    ∧ (schemas.isBackup r = true →
       Forall (λ e, spec.is_link_event e = false) evs)
    ∧ ((main.select_entries r w).1 = inr [] → evs = [])
    ∧ ∀ resp,
        (main.get_currency_rates ext r client w).1 = inr (main.Json resp) →
        (schemas.url resp = None ∨ schemas.comment resp = None)
        ∧ (schemas.isBackup r = true → schemas.url resp = None).
Proof.
  rewrite get_currency_rates_unfold, select_entries_run.
  cbn [fst].
  set (w1 := record_events w _).
  assert (trace w1 = trace w
            ++ [Execute (SelectRange (schemas.startDate r) (schemas.endDate r))])
    as Hw1 by reflexivity.
  clearbody w1.
  destruct (sql.order_by main.columns _) as [|s ss].
  { unfold main.handle_entries, mbind, M_bind, lift, raise, mret, M_ret.
    destruct (schemas.Response_of ext r None _) as [e|resp] eqn:Hr;
      cbn [fst snd]; exists []; rewrite Hw1;
      (split; [reflexivity|]); (split; [intros ?????? H; by apply elem_of_nil in H|]);
      (split; [constructor|]); (split; [reflexivity|]);
      intros resp' Hresp; simplify_eq.
    apply Response_of_fields in Hr as [-> _]. auto. }
  unfold main.handle_entries, mbind, M_bind.
  destruct (schemas.available_output_formats !! schemas.outputFormat r)
    as [cls|]; unfold raise, mret, M_ret; cbn [fst snd].
  2:{ exists []. rewrite Hw1. split; [reflexivity|].
      split; [intros ?????? H; by apply elem_of_nil in H|].
      split; [constructor|]. split; [discriminate|]. discriminate. }
  rewrite init_nonempty. unfold lift, mret, M_ret.
  set (h := handlers.mkScalarsHandler _ _ _ _ _ _ _).
  destruct (upload_contents_spec ext h w1) as (evs1 & Ht1 & Hexp & Hs1).
  destruct (handlers.upload_contents ext h w1) as [[e|h'] w2].
  { cbn [fst snd] in *. exists evs1. rewrite Ht1, Hw1, <- app_assoc.
    split; [reflexivity|].
    split.
    { intros b k d ct b' k' _ H. exfalso.
      eapply Forall_forall in Hexp; [|exact H]. discriminate. }
    split.
    { intros _. eapply Forall_impl; [exact Hexp|].
      intros [] ?; simpl in *; congruence. }
    split; discriminate. }
  cbn [fst snd] in *.
  destruct (Hs1 h' eq_refl) as (b & k & Hk & Hb & Hput & _).
  destruct (schemas.isBackup r) eqn:Hbk.
  { cbn [fst snd]. exists evs1. rewrite Ht1, Hw1, <- app_assoc.
    split; [reflexivity|].
    split.
    { intros b0 k0 d ct b' k' _ H. exfalso.
      eapply Forall_forall in Hexp; [|exact H]. discriminate. }
    split.
    { intros _. eapply Forall_impl; [exact Hexp|].
      intros [] ?; simpl in *; congruence. }
    split; discriminate. }
  destruct (generate_url_spec ext h' w2 k Hk) as (evs2 & Ht2 & Hlink & Hpre & _).
  assert (∀ b0 k0 d ct b' k',
            PutObject b0 k0 d ct ∈ evs1 ++ evs2 →
            GeneratePresignedUrl b' k' ∈ evs1 ++ evs2 → b' = b0 ∧ k' = k0)
    as Hkeys.
  { intros b0 k0 d ct b' k' [H1|H1]%elem_of_app [H2|H2]%elem_of_app.
    - eapply Forall_forall in Hexp; [|exact H2]. discriminate.
    - apply Hput in H1 as [-> ->]. apply Hpre in H2 as [H2 ->].
      split; congruence.
    - eapply Forall_forall in Hlink; [|exact H1]. discriminate.
    - eapply Forall_forall in Hlink; [|exact H1]. discriminate. }
  destruct (handlers.generate_url ext h' w2) as [[e|[u h'']] w3];
    cbn [fst snd] in *.
  { exists (evs1 ++ evs2). rewrite Ht2, Ht1, Hw1, <- !app_assoc.
    split; [reflexivity|]. split; [exact Hkeys|].
    split; [discriminate|]. split; discriminate. }
  unfold lift, raise, mret, M_ret.
  destruct (schemas.Response_of ext r (Some u) None) as [e|resp] eqn:Hr;
    cbn [fst snd]; exists (evs1 ++ evs2);
    rewrite Ht2, Ht1, Hw1, <- !app_assoc;
    (split; [reflexivity|]); (split; [exact Hkeys|]);
    (split; [discriminate|]); (split; [discriminate|]);
    intros resp' Hresp; simplify_eq.
  apply Response_of_fields in Hr as [_ ->]. split; [auto|discriminate].
Qed.

(** ** The orchestrator's answers *)

Lemma Response_of_ok ext r u c :
  schemas.outputFormats (schemas.outputFormat r) = true →
  schemas.Response_of ext r u c
  = inr {| schemas.r_startDate :=
             datetime.strftime_Y_m_d <$> schemas.startDate r;
           schemas.r_endDate := datetime.strftime_Y_m_d <$> schemas.endDate r;
           schemas.r_outputFormat := schemas.outputFormat r;
           schemas.url := u; schemas.comment := c |}.
Proof.
  intros Hf. unfold schemas.Response_of. rewrite Hf.
  destruct (schemas.startDate r), (schemas.endDate r); reflexivity.
Qed.

Lemma empty_result_run ext r client w :
  (main.select_entries r w).1 = inr [] →
  schemas.outputFormats (schemas.outputFormat r) = true →
  main.get_currency_rates ext r client w
  = (inr (main.Json
            {| schemas.r_startDate :=
                 datetime.strftime_Y_m_d <$> schemas.startDate r;
               schemas.r_endDate :=
                 datetime.strftime_Y_m_d <$> schemas.endDate r;
               schemas.r_outputFormat := schemas.outputFormat r;
               schemas.url := None; schemas.comment := Some "No results" |}),
     record_events w
       [Execute (SelectRange (schemas.startDate r) (schemas.endDate r))]).
Proof.
  rewrite select_entries_run. cbn [fst]. intros [= Hs] Hf.
  rewrite get_currency_rates_unfold, Hs.
  unfold main.handle_entries, mbind, M_bind.
  rewrite Response_of_ok by done. reflexivity.
Qed.

(** C6: when the statement of a request selects no record, the endpoint
    answers with a [Response] whose comment is "No results" and whose
    link is absent, and the only call that left the process is the
    SELECT itself: no handler is built, nothing is encoded or uploaded.
    (This holds whatever the backup flag.)  Moreover no [Response] the
    endpoint ever returns has both a link and a comment. *)
Theorem empty_result_short_circuits :
  (∀ ext r client w,
     (main.select_entries r w).1 = inr [] →
     schemas.outputFormats (schemas.outputFormat r) = true →
     ∃ resp,
       main.get_currency_rates ext r client w
       = (inr (main.Json resp),
          record_events w
            [Execute (SelectRange (schemas.startDate r)
                                  (schemas.endDate r))])
       ∧ schemas.comment resp = Some "No results"
       ∧ schemas.url resp = None)
  ∧ (∀ ext r client w resp,
       (main.get_currency_rates ext r client w).1 = inr (main.Json resp) →
       schemas.url resp = None ∨ schemas.comment resp = None).
Proof.
  split.
  - intros ext r client w Hs Hf. eexists. split; [by apply empty_result_run|].
    split; reflexivity.
  - intros ext r client w resp H.
    destruct (get_currency_rates_events ext r client w)
      as (evs & _ & _ & _ & _ & Hresp).
    by apply Hresp in H as [? _].
Qed.

Lemma empty_result_short_circuits_witness :
  ∃ resp,
    main.get_currency_rates sample.ext
      {| schemas.startDate := Some (sample.day 2025 1 1);
         schemas.endDate := None;
         schemas.outputFormat := "json"; schemas.isBackup := false |}
      (Some aiobotocore.s3_client) (sample.world sample.table)
    = (inr (main.Json resp),
       record_events (sample.world sample.table)
         [Execute (SelectRange (Some (sample.day 2025 1 1)) None)])
    ∧ schemas.comment resp = Some "No results"
    ∧ schemas.url resp = None.
Proof.
  apply (proj1 empty_result_short_circuits sample.ext
           {| schemas.startDate := Some (sample.day 2025 1 1);
              schemas.endDate := None;
              schemas.outputFormat := "json"; schemas.isBackup := false |}
           (Some aiobotocore.s3_client) (sample.world sample.table));
    vm_compute; reflexivity.
Defined.

Lemma write_empty (data : bytes) :
  io.write io.empty data
  = {| io.getvalue := data; io.tell := length data |}.
Proof.
  unfold io.write, io.empty. cbn [io.getvalue io.tell take Nat.add app].
  by rewrite drop_nil, app_nil_r.
Qed.

Lemma backup_run ext r c w s ss cls bucket data :
  schemas.isBackup r = true →
  (main.select_entries r w).1 = inr (s :: ss) →
  schemas.available_output_formats !! schemas.outputFormat r = Some cls →
  OBS_BUCKET ext = Some bucket →
  handlers.writer ext cls (spec.tabular (s :: ss)) = inr data →
  s3_put_object ext bucket
    ("currency_rates_db_backup" +:+ "." +:+ handlers.extension cls) = None →
  ∃ w',
    main.get_currency_rates ext r (Some c) w
    = (inr (main.StatusOnly 204), w')
    ∧ trace w'
      = trace w
          ++ [Execute (SelectRange (schemas.startDate r) (schemas.endDate r));
              Encode (handlers.extension cls);
              PutObject bucket
                ("currency_rates_db_backup" +:+ "."
                   +:+ handlers.extension cls)
                data (handlers.content_type cls)]
    ∧ objects w'
      = <[(bucket,
           "currency_rates_db_backup" +:+ "." +:+ handlers.extension cls)
          := {| s3_body := data;
                s3_content_type := handlers.content_type cls |}]>
          (objects w)
    ∧ drawn w' = drawn w.
Proof.
  rewrite select_entries_run. cbn [fst]. intros Hb [= Hs] Hl Hbk Hw Hput.
  rewrite get_currency_rates_unfold, Hs.
  unfold main.handle_entries, mbind, M_bind. rewrite Hl.
  unfold mret, M_ret. rewrite init_nonempty, Hb. unfold lift, mret, M_ret.
  unfold_handler. handler_fields. rewrite Hw. handler_fields.
  rewrite Hbk. handler_fields.
  rewrite Hput, write_empty.
  cbn [io.getvalue drop currency_rates objects urandom drawn trace].
  eexists. split; [reflexivity|]. cbn [trace objects drawn].
  rewrite <- !app_assoc. done.
Qed.

(** C5: for a request whose backup flag is set, whatever the stored
    records and whatever the outside world does, the calls sent out
    contain neither a presigned-link generation nor a shortening, and a
    [Response] that is returned carries no link; when records are
    selected and encoding and upload succeed, the endpoint stops after the
    upload to the fixed backup key and answers 204 No Content. *)
Theorem backup_response_has_no_link :
  (∀ ext r client w,
     schemas.isBackup r = true →
     ∃ evs,
       trace (main.get_currency_rates ext r client w).2 = trace w ++ evs
       ∧ Forall (λ e, spec.is_link_event e = false) evs
       ∧ ∀ resp,
           (main.get_currency_rates ext r client w).1
           = inr (main.Json resp) →
           schemas.url resp = None)
  ∧ (∀ ext r c w s ss cls bucket data,
       schemas.isBackup r = true →
       (main.select_entries r w).1 = inr (s :: ss) →
       schemas.available_output_formats !! schemas.outputFormat r
       = Some cls →
       OBS_BUCKET ext = Some bucket →
       handlers.writer ext cls (spec.tabular (s :: ss)) = inr data →
       s3_put_object ext bucket
         ("currency_rates_db_backup" +:+ "." +:+ handlers.extension cls)
       = None →
       ∃ w',
         main.get_currency_rates ext r (Some c) w
         = (inr (main.StatusOnly 204), w')
         ∧ trace w'
           = trace w
               ++ [Execute (SelectRange (schemas.startDate r)
                                        (schemas.endDate r));
                   Encode (handlers.extension cls);
                   PutObject bucket
                     ("currency_rates_db_backup" +:+ "."
                        +:+ handlers.extension cls)
                     data (handlers.content_type cls)]
         ∧ objects w'
           = <[(bucket,
                "currency_rates_db_backup" +:+ "."
                  +:+ handlers.extension cls)
               := {| s3_body := data;
                     s3_content_type := handlers.content_type cls |}]>
               (objects w)
         ∧ drawn w' = drawn w).
Proof.
  split.
  - intros ext r client w Hb.
    destruct (get_currency_rates_events ext r client w)
      as (evs & Ht & _ & Hlink & _ & Hresp).
    eexists. split; [exact Ht|]. split.
    + constructor; [reflexivity|]. by apply Hlink.
    + intros resp H. by apply Hresp in H as [_ ?]; auto.
  - intros. by eapply backup_run.
Qed.

(** The theorem at the backup request over the sample store. *)
Lemma backup_response_has_no_link_witness :
  ∃ w',
    main.get_currency_rates sample.ext main.backup_request
      (Some aiobotocore.s3_client) (sample.world sample.table)
    = (inr (main.StatusOnly 204), w')
    ∧ trace w'
      = trace (sample.world sample.table)
          ++ [Execute (SelectRange (schemas.startDate main.backup_request)
                                   (schemas.endDate main.backup_request));
              Encode (handlers.extension handlers.ParquetMaker);
              PutObject "rates"
                ("currency_rates_db_backup" +:+ "."
                   +:+ handlers.extension handlers.ParquetMaker)
                [Byte.x70; Byte.x0a; Byte.x0a; Byte.x0a; Byte.x0a; Byte.x0a]
                (handlers.content_type handlers.ParquetMaker)]
    ∧ objects w'
      = <[("rates",
           "currency_rates_db_backup" +:+ "."
             +:+ handlers.extension handlers.ParquetMaker)
          := {| s3_body :=
                  [Byte.x70; Byte.x0a; Byte.x0a; Byte.x0a; Byte.x0a; Byte.x0a];
                s3_content_type :=
                  handlers.content_type handlers.ParquetMaker |}]>
          (objects (sample.world sample.table))
    ∧ drawn w' = drawn (sample.world sample.table).
Proof.
  apply (proj2 backup_response_has_no_link sample.ext main.backup_request
           aiobotocore.s3_client (sample.world sample.table)
           sample.oldest sample.later handlers.ParquetMaker "rates"
           [Byte.x70; Byte.x0a; Byte.x0a; Byte.x0a; Byte.x0a; Byte.x0a]);
    vm_compute; reflexivity.
Defined.

Lemma key_stable (self self' : handlers.ScalarsHandler) (k : string)
    (w w' : World) :
  handlers.key self w = (inr (k, self'), w') →
  handlers.key_cached self' = Some k
  ∧ ∀ w'', handlers.key self' w'' = (inr (k, self'), w'').
Proof.
  unfold handlers.key.
  destruct (handlers.key_cached self) as [k0|] eqn:Hk.
  - intros [= <- <- <-]. split; [done|]. intros w''. by rewrite Hk.
  - destruct (handlers._is_backup self);
      unfold mbind, M_bind, mret, M_ret, os_urandom16;
      intros [= <- <- <-]; split; reflexivity.
Qed.

(** C9: a handler computes its key once: the call that returns the key
    leaves it cached, and every later access, in whatever world, returns
    the same key without drawing again.  Hence after a successful upload
    the presigned link is generated for the bucket and key the object was
    put under, and in every run of the endpoint each link generation
    names the bucket and key of the upload. *)
Theorem upload_and_link_share_key :
  (∀ self w k self' w',
     handlers.key self w = (inr (k, self'), w') →
     ∀ w'', handlers.key self' w'' = (inr (k, self'), w''))
  ∧ (∀ ext self w self',
       (handlers.upload_contents ext self w).1 = inr self' →
       ∃ b k evs,
         trace (handlers.upload_contents ext self w).2 = trace w ++ evs
         ∧ (∃ d ct, PutObject b k d ct ∈ evs)
         ∧ (∀ b' k' d ct, PutObject b' k' d ct ∈ evs → b' = b ∧ k' = k)
         ∧ ∀ w2, ∃ evs2,
             trace (handlers.generate_url ext self' w2).2 = trace w2 ++ evs2
             ∧ ∀ b' k', GeneratePresignedUrl b' k' ∈ evs2 → b' = b ∧ k' = k)
  ∧ (∀ ext r client w,
       ∃ evs,
         trace (main.get_currency_rates ext r client w).2 = trace w ++ evs
         ∧ ∀ b k d ct b' k',
             PutObject b k d ct ∈ evs → GeneratePresignedUrl b' k' ∈ evs →
             b' = b ∧ k' = k).
Proof.
  split; [|split].
  - intros self w k self' w' H. by apply key_stable in H as [_ ?].
  - intros ext self w self' Hs.
    destruct (upload_contents_spec ext self w) as (evs & Ht & _ & Hok).
    destruct (Hok self' Hs) as (b & k & Hk & Hb & Hput & d & Hin).
    exists b, k, evs. split; [exact Ht|]. split; [eauto|].
    split; [exact Hput|]. intros w2.
    destruct (generate_url_spec ext self' w2 k Hk) as (evs2 & Ht2 & _ & Hpre & _).
    exists evs2. split; [exact Ht2|]. intros b' k' H.
    apply Hpre in H as [H ->]. split; congruence.
  - intros ext r client w.
    destruct (get_currency_rates_events ext r client w)
      as (evs & Ht & Hkeys & _).
    eexists. split; [exact Ht|].
    intros b k d ct b' k' H1 H2.
    apply elem_of_cons in H1 as [H1|H1]; [discriminate|].
    apply elem_of_cons in H2 as [H2|H2]; [discriminate|].
    by eapply Hkeys.
Qed.

(** The theorem at an export of the sample store as CSV. *)
Lemma upload_and_link_share_key_witness :
  ∃ evs,
    trace (main.get_currency_rates sample.ext
             {| schemas.startDate := None; schemas.endDate := None;
                schemas.outputFormat := "csv"; schemas.isBackup := false |}
             (Some aiobotocore.s3_client) (sample.world sample.table)).2
    = trace (sample.world sample.table) ++ evs
    ∧ ∀ b k d ct b' k',
        PutObject b k d ct ∈ evs → GeneratePresignedUrl b' k' ∈ evs →
        b' = b ∧ k' = k.
Proof.
  exact (proj2 (proj2 upload_and_link_share_key) sample.ext
           {| schemas.startDate := None; schemas.endDate := None;
              schemas.outputFormat := "csv"; schemas.isBackup := false |}
           (Some aiobotocore.s3_client) (sample.world sample.table)).
Defined.

Example export_uses_one_key :
  trace (main.get_currency_rates sample.ext
           {| schemas.startDate := None; schemas.endDate := None;
              schemas.outputFormat := "csv"; schemas.isBackup := false |}
           (Some aiobotocore.s3_client) (sample.world sample.table)).2
  = [Execute (SelectRange None None); Encode "csv";
     PutObject "rates" "01234567-89ab-4def-8123-456789abcdef.csv"
       [Byte.x63; Byte.x0a; Byte.x0a; Byte.x0a; Byte.x0a; Byte.x0a]
       "text/csv";
     GeneratePresignedUrl "rates" "01234567-89ab-4def-8123-456789abcdef.csv";
     Shorten "https://obs/rates/01234567-89ab-4def-8123-456789abcdef.csv"].
Proof. vm_compute. reflexivity. Qed.

(** ** Disabled object storage *)

Lemma disabled_client_none (ext : Externals) :
  botocore_client.S3_ENABLED ext = false →
  botocore_client.get_async_client ext = None.
Proof. unfold botocore_client.get_async_client. by intros ->. Qed.

Lemma null_client_upload_raises ext r w s ss cls data :
  (main.select_entries r w).1 = inr (s :: ss) →
  schemas.available_output_formats !! schemas.outputFormat r = Some cls →
  handlers.writer ext cls (spec.tabular (s :: ss)) = inr data →
  (main.get_currency_rates ext r None w).1
  = inl (AttributeError "'NoneType' object has no attribute 'put_object'").
Proof.
  rewrite select_entries_run. cbn [fst]. intros [= Hs] Hl Hw.
  rewrite get_currency_rates_unfold, Hs.
  unfold main.handle_entries, mbind, M_bind. rewrite Hl.
  unfold mret, M_ret. rewrite init_nonempty. unfold lift, mret, M_ret.
  unfold_handler. handler_fields. rewrite Hw. handler_fields.
  reflexivity.
Qed.

(** C3 (the code departs from the claim): with no object-storage
    setting present the client dependency is [None]; a default request
    over the non-empty sample store then fails in the upload step with
    AttributeError on the null client, after the SELECT and the encoding,
    instead of completing with a link-less answer. *)
Theorem disabled_storage_export_raises :
  botocore_client.S3_ENABLED sample.ext_disabled = false
  ∧ botocore_client.get_async_client sample.ext_disabled = None
  ∧ main.GET_currency_rates sample.ext_disabled
      {| schemas.q_startDate := None; schemas.q_endDate := None;
         schemas.q_outputFormat := None; schemas.q_isBackup := None |}
      (sample.world sample.table)
    = (inl (AttributeError "'NoneType' object has no attribute 'put_object'"),
       record_events (sample.world sample.table)
         [Execute (SelectRange None None); Encode "parquet"]).
Proof. repeat split; vm_compute; reflexivity. Qed.

(** ** Empty record sequences *)

(** C4 (as the code has it): a handler built from a non-empty record
    sequence holds, for every variant, the nine declared columns in
    declaration order and one row per record in order; built from an
    empty sequence it raises KeyError for every variant; and the endpoint
    never does so: when the statement selects nothing, the calls sent out
    contain no encoding and no upload. *)
Theorem handler_needs_records :
  (∀ cls s ss client is_backup,
     ∃ h,
       handlers.__init__ cls (s :: ss) client is_backup = inr h
       ∧ pd.columns (handlers.df h) = models.currency_columns
       ∧ pd.rows (handlers.df h) = map spec.row_values (s :: ss))
  ∧ (∀ cls client is_backup,
       handlers.__init__ cls [] client is_backup = inl KeyError)
  ∧ (∀ ext r client w,
       (main.select_entries r w).1 = inr [] →
       ∃ evs,
         trace (main.get_currency_rates ext r client w).2 = trace w ++ evs
         ∧ Forall (λ e, spec.is_export_event e = false) evs).
Proof.
  split; [|split].
  - intros. eexists. split; [apply init_nonempty|]. split; reflexivity.
  - intros. apply init_empty.
  - intros ext r client w Hs.
    destruct (get_currency_rates_events ext r client w)
      as (evs & Ht & _ & _ & Hnil & _).
    rewrite (Hnil Hs) in Ht. eexists. split; [exact Ht|].
    repeat constructor.
Qed.

(** The theorem at a query for 2025 over the sample store. *)
Lemma handler_needs_records_witness :
  ∃ evs,
    trace (main.get_currency_rates sample.ext
             {| schemas.startDate := Some (sample.day 2025 1 1);
                schemas.endDate := None;
                schemas.outputFormat := "csv"; schemas.isBackup := false |}
             (Some aiobotocore.s3_client) (sample.world sample.table)).2
    = trace (sample.world sample.table) ++ evs
    ∧ Forall (λ e, spec.is_export_event e = false) evs.
Proof.
  apply (proj2 (proj2 handler_needs_records) sample.ext
           {| schemas.startDate := Some (sample.day 2025 1 1);
              schemas.endDate := None;
              schemas.outputFormat := "csv"; schemas.isBackup := false |}
           (Some aiobotocore.s3_client) (sample.world sample.table)).
  vm_compute. reflexivity.
Defined.

(** Against C4 as stated: for each of the four variants, building the
    handler for an empty record sequence fails with KeyError, before any
    encoder could produce an artifact. *)
Lemma empty_sequence_is_not_encoded :
  handlers.__init__ handlers.CSVMaker [] (Some aiobotocore.s3_client) false
  = inl KeyError
  ∧ handlers.__init__ handlers.JSONMaker [] (Some aiobotocore.s3_client) false
    = inl KeyError
  ∧ handlers.__init__ handlers.ParquetMaker [] (Some aiobotocore.s3_client)
      false
    = inl KeyError
  ∧ handlers.__init__ handlers.XlsxMaker [] (Some aiobotocore.s3_client) false
    = inl KeyError.
Proof. repeat split; reflexivity. Qed.

(** ** Storage keys *)

Lemma append_single_inj (s1 s2 : string) (c1 c2 : ascii) :
  s1 +:+ String c1 "" = s2 +:+ String c2 "" → s1 = s2 ∧ c1 = c2.
Proof.
  revert s2. induction s1 as [|a s1 IH]; intros [|b s2] H; simpl in H.
  - by injection H as ->.
  - injection H as -> H. destruct s2; discriminate.
  - injection H as -> H. destruct s1; discriminate.
  - injection H as -> H. apply IH in H as [-> ->]. done.
Qed.

Lemma append_inj_length (s1 s2 t1 t2 : string) :
  String.length s1 = String.length s2 →
  s1 +:+ t1 = s2 +:+ t2 → s1 = s2 ∧ t1 = t2.
Proof.
  revert s2. induction s1 as [|a s1 IH]; intros [|b s2] Hl H;
    simpl in *; try discriminate; [done|].
  injection H as -> H. injection Hl as Hl.
  apply IH in H as [-> ->]; done.
Qed.

Lemma digit_char_inj (d e : Z) :
  0 <= d < 16 → 0 <= e < 16 →
  text.digit_char d = text.digit_char e → d = e.
Proof.
  intros Hd He H.
  assert (d = 0 ∨ d = 1 ∨ d = 2 ∨ d = 3 ∨ d = 4 ∨ d = 5 ∨ d = 6 ∨ d = 7
          ∨ d = 8 ∨ d = 9 ∨ d = 10 ∨ d = 11 ∨ d = 12 ∨ d = 13 ∨ d = 14
          ∨ d = 15) as Hd' by lia.
  assert (e = 0 ∨ e = 1 ∨ e = 2 ∨ e = 3 ∨ e = 4 ∨ e = 5 ∨ e = 6 ∨ e = 7
          ∨ e = 8 ∨ e = 9 ∨ e = 10 ∨ e = 11 ∨ e = 12 ∨ e = 13 ∨ e = 14
          ∨ e = 15) as He' by lia.
  clear Hd He.
  repeat (destruct Hd' as [->|Hd']); try subst d;
    repeat (destruct He' as [->|He']); try subst e;
    first [reflexivity | discriminate H].
Qed.

Lemma length_append_single (s : string) (c : ascii) :
  String.length (s +:+ String c "") = S (String.length s).
Proof. induction s as [|a s IH]; simpl; [reflexivity|]. by rewrite IH. Qed.

Lemma zfill_length (b : Z) (n : nat) (v : Z) :
  String.length (text.zfill b n v) = n.
Proof.
  revert v. induction n as [|n IH]; intros v; simpl; [reflexivity|].
  by rewrite length_append_single, IH.
Qed.

Lemma zfill_hex_inj (n : nat) (v w : Z) :
  0 <= v < 16 ^ Z.of_nat n → 0 <= w < 16 ^ Z.of_nat n →
  text.zfill 16 n v = text.zfill 16 n w → v = w.
Proof.
  revert v w. induction n as [|n IH]; intros v w Hv Hw H.
  - simpl in Hv, Hw. lia.
  - rewrite Nat2Z.inj_succ, Z.pow_succ_r in Hv, Hw by lia.
    simpl in H. apply append_single_inj in H as [H1 H2].
    apply digit_char_inj in H2; [|apply Z.mod_pos_bound; lia ..].
    apply IH in H1;
      [|split; [apply Z.div_pos; lia | apply Z.div_lt_upper_bound; lia] ..].
    rewrite (Z.div_mod v 16), (Z.div_mod w 16) by lia. congruence.
Qed.

Lemma hyphenate_inj (h1 h2 : string) :
  String.length h1 = 32%nat → String.length h2 = 32%nat →
  uuid.hyphenate h1 = uuid.hyphenate h2 → h1 = h2.
Proof.
  intros H1 H2 H.
  do 32 (destruct h1 as [|? h1]; [discriminate H1|];
         cbn [String.length] in H1; apply Nat.succ_inj in H1).
  destruct h1; [|discriminate H1].
  do 32 (destruct h2 as [|? h2]; [discriminate H2|];
         cbn [String.length] in H2; apply Nat.succ_inj in H2).
  destruct h2; [|discriminate H2].
  vm_compute in H. by simplify_eq.
Qed.

Lemma hyphenate_length (h : string) :
  String.length h = 32%nat → String.length (uuid.hyphenate h) = 36%nat.
Proof.
  intros H1.
  do 32 (destruct h as [|? h]; [discriminate H1|];
         cbn [String.length] in H1; apply Nat.succ_inj in H1).
  destruct h; [|discriminate H1]. reflexivity.
Qed.

Lemma str_length (u : Z) : String.length (uuid.str u) = 36%nat.
Proof. apply hyphenate_length, zfill_length. Qed.

Lemma str_inj (u1 u2 : Z) :
  0 <= u1 < 2 ^ 128 → 0 <= u2 < 2 ^ 128 →
  uuid.str u1 = uuid.str u2 → u1 = u2.
Proof.
  intros H1 H2 H. apply hyphenate_inj in H; [|apply zfill_length ..].
  apply (zfill_hex_inj 32); [done ..|exact H].
Qed.

Lemma below_pow2_by_bits (x n : Z) :
  0 <= n → 0 <= x → (∀ i, n <= i → Z.testbit x i = false) → x < 2 ^ n.
Proof.
  intros Hn Hx Hbits. destruct (Z.eq_dec x 0) as [->|Hne].
  - apply Z.pow_pos_nonneg; lia.
  - apply Z.log2_lt_pow2; [lia|].
    destruct (Z.lt_ge_cases (Z.log2 x) n) as [|Hge]; [done|].
    pose proof (Z.bit_log2 x ltac:(lia)) as Hb.
    rewrite Hbits in Hb by lia. discriminate.
Qed.

Lemma uuid4_range (r : Z) : 0 <= uuid.uuid4 r < 2 ^ 128.
Proof.
  unfold uuid.uuid4. split.
  - apply Z.lor_nonneg. split; [|by vm_compute].
    apply Z.land_nonneg. left. apply Z.lor_nonneg. split; [|by vm_compute].
    apply Z.land_nonneg. left. apply Z.mod_pos_bound. lia.
  - apply below_pow2_by_bits; [lia| |].
    + apply Z.lor_nonneg. split; [|by vm_compute].
      apply Z.land_nonneg. left. apply Z.lor_nonneg. split; [|by vm_compute].
      apply Z.land_nonneg. left. apply Z.mod_pos_bound. lia.
    + intros i Hi.
      rewrite Z.lor_spec, Z.land_spec, Z.lor_spec, Z.land_spec.
      rewrite Z.mod_pow2_bits_high by lia.
      rewrite !Z.shiftl_spec by lia.
      rewrite (Z.bits_above_log2 0x8000 (i - 48)) by (simpl; lia).
      rewrite (Z.bits_above_log2 4 (i - 76)) by (simpl; lia).
      reflexivity.
Qed.

Lemma key_run (self : handlers.ScalarsHandler) (w : World) :
  handlers.key_cached self = None →
  ∃ name w',
    handlers.key self w
    = (inr (name +:+ "." +:+ handlers.extension (handlers.cls self),
            handlers.with_key self
              (name +:+ "." +:+ handlers.extension (handlers.cls self))),
       w')
    ∧ urandom w' = urandom w
    ∧ if handlers._is_backup self
      then name = "currency_rates_db_backup" ∧ w' = w
      else name = uuid.str (uuid.uuid4 (urandom w (drawn w)))
           ∧ drawn w' = S (drawn w).
Proof.
  intros Hk. unfold handlers.key. rewrite Hk.
  destruct (handlers._is_backup self);
    unfold mbind, M_bind, mret, M_ret, os_urandom16;
    eexists _, _; (split; [reflexivity|]); split; done.
Qed.

Lemma uuid4_of_random_bits (r : Z) :
  uuid.uuid4 r
  = Z.lor (spec.random_bits r) (Z.lor (Z.shiftl 0x8000 48) (Z.shiftl 4 76)).
Proof.
  unfold uuid.uuid4, spec.random_bits.
  set (m := r mod 2 ^ 128).
  assert (Z.land (Z.shiftl 0x8000 48) (Z.shiftl 0xf000 64) = 0) as Hbc
    by reflexivity.
  apply Z.bits_inj'. intros i Hi.
  apply (f_equal (λ z, Z.testbit z i)) in Hbc.
  rewrite Z.land_spec, Z.bits_0 in Hbc.
  rewrite !Z.lor_spec, !Z.land_spec, !Z.lnot_spec, !Z.lor_spec, !Z.land_spec,
    !Z.lnot_spec by done.
  destruct (Z.testbit m i), (Z.testbit (Z.shiftl 0xc000 48) i),
    (Z.testbit (Z.shiftl 0x8000 48) i), (Z.testbit (Z.shiftl 0xf000 64) i),
    (Z.testbit (Z.shiftl 4 76) i); done.
Qed.

Lemma random_bits_of_uuid4 (r : Z) :
  spec.random_bits r
  = Z.land (uuid.uuid4 r)
      (Z.lnot (Z.lor (Z.shiftl 0xc000 48) (Z.shiftl 0xf000 64))).
Proof.
  unfold uuid.uuid4, spec.random_bits.
  set (m := r mod 2 ^ 128).
  assert (Z.land (Z.shiftl 0x8000 48) (Z.lnot (Z.shiftl 0xc000 48)) = 0)
    as Hba by reflexivity.
  assert (Z.land (Z.shiftl 4 76) (Z.lnot (Z.shiftl 0xf000 64)) = 0)
    as Hdc by reflexivity.
  apply Z.bits_inj'. intros i Hi.
  apply (f_equal (λ z, Z.testbit z i)) in Hba, Hdc.
  rewrite Z.land_spec, Z.lnot_spec, Z.bits_0 in Hba, Hdc by done.
  rewrite !Z.land_spec, !Z.lnot_spec, !Z.lor_spec, !Z.land_spec,
    !Z.lor_spec, !Z.land_spec, !Z.lnot_spec by done.
  destruct (Z.testbit m i), (Z.testbit (Z.shiftl 0xc000 48) i),
    (Z.testbit (Z.shiftl 0x8000 48) i), (Z.testbit (Z.shiftl 0xf000 64) i),
    (Z.testbit (Z.shiftl 4 76) i); done.
Qed.

Lemma uuid4_eq_iff (r1 r2 : Z) :
  uuid.uuid4 r1 = uuid.uuid4 r2 ↔ spec.random_bits r1 = spec.random_bits r2.
Proof.
  split; intros H.
  - by rewrite !random_bits_of_uuid4, H.
  - by rewrite !uuid4_of_random_bits, H.
Qed.

(** C1: a handler with the backup flag set computes the key
    "currency_rates_db_backup.<extension>" and consumes no randomness, so
    two backup handlers of one format, run one after the other, get the
    identical key.  A handler with the flag clear computes
    "<uuid4>.<extension>" from the next draw of the entropy source, and
    two such handlers of one format, run one after the other, get the
    same key exactly when the two draws agree on every bit that [uuid4]
    keeps: the keys are as unique as the draws are, no more. *)
Theorem backup_key_fixed_export_key_by_draw :
  (∀ h1 h2 w,
     handlers._is_backup h1 = true → handlers._is_backup h2 = true →
     handlers.key_cached h1 = None → handlers.key_cached h2 = None →
     handlers.cls h1 = handlers.cls h2 →
     ∃ k h1' h2',
       handlers.key h1 w = (inr (k, h1'), w)
       ∧ handlers.key h2 w = (inr (k, h2'), w)
       ∧ k = "currency_rates_db_backup" +:+ "."
               +:+ handlers.extension (handlers.cls h1))
  ∧ (∀ h1 h2 w,
       handlers._is_backup h1 = false → handlers._is_backup h2 = false →
       handlers.key_cached h1 = None → handlers.key_cached h2 = None →
       handlers.cls h1 = handlers.cls h2 →
       ∃ k1 h1' w1 k2 h2' w2,
         handlers.key h1 w = (inr (k1, h1'), w1)
         ∧ handlers.key h2 w1 = (inr (k2, h2'), w2)
         ∧ k1 = uuid.str (uuid.uuid4 (urandom w (drawn w))) +:+ "."
                  +:+ handlers.extension (handlers.cls h1)
         ∧ k2 = uuid.str (uuid.uuid4 (urandom w (S (drawn w)))) +:+ "."
                  +:+ handlers.extension (handlers.cls h2)
         ∧ drawn w2 = S (S (drawn w))
         ∧ (k1 = k2
            ↔ spec.random_bits (urandom w (drawn w))
              = spec.random_bits (urandom w (S (drawn w))))).
Proof.
  split.
  - intros h1 h2 w Hb1 Hb2 Hk1 Hk2 Hcls.
    destruct (key_run h1 w Hk1) as (n1 & w1 & Hr1 & _ & Hn1).
    destruct (key_run h2 w Hk2) as (n2 & w2 & Hr2 & _ & Hn2).
    rewrite Hb1 in Hn1. rewrite Hb2 in Hn2.
    destruct Hn1 as [-> ->]. destruct Hn2 as [-> ->].
    rewrite <- Hcls in Hr2. eauto 10.
  - intros h1 h2 w Hb1 Hb2 Hk1 Hk2 Hcls.
    destruct (key_run h1 w Hk1) as (n1 & w1 & Hr1 & Hu1 & Hn1).
    destruct (key_run h2 w1 Hk2) as (n2 & w2 & Hr2 & _ & Hn2).
    rewrite Hb1 in Hn1. rewrite Hb2 in Hn2.
    destruct Hn1 as [-> Hd1]. destruct Hn2 as [-> Hd2].
    rewrite Hu1, Hd1 in Hr2. rewrite Hd1 in Hd2.
    eexists _, _, _, _, _, _. split; [exact Hr1|]. split; [exact Hr2|].
    split; [reflexivity|]. split; [reflexivity|]. split; [exact Hd2|].
    rewrite <- uuid4_eq_iff, Hcls. split.
    + intros [H _]%append_inj_length; [|by rewrite !str_length].
      apply str_inj in H; [done|apply uuid4_range ..].
    + by intros ->.
Qed.

(** The theorem at two ad-hoc CSV handlers run one after the other. *)
Lemma backup_key_fixed_export_key_by_draw_witness :
  ∃ k1 h1' w1 k2 h2' w2,
    handlers.key (sample.handler false) (sample.world sample.table)
    = (inr (k1, h1'), w1)
    ∧ handlers.key (sample.handler false) w1 = (inr (k2, h2'), w2)
    ∧ k1 = uuid.str
             (uuid.uuid4
                (urandom (sample.world sample.table)
                   (drawn (sample.world sample.table))))
             +:+ "." +:+ handlers.extension (handlers.cls (sample.handler false))
    ∧ k2 = uuid.str
             (uuid.uuid4
                (urandom (sample.world sample.table)
                   (S (drawn (sample.world sample.table)))))
             +:+ "." +:+ handlers.extension (handlers.cls (sample.handler false))
    ∧ drawn w2 = S (S (drawn (sample.world sample.table)))
    ∧ (k1 = k2
       ↔ spec.random_bits
           (urandom (sample.world sample.table)
              (drawn (sample.world sample.table)))
         = spec.random_bits
             (urandom (sample.world sample.table)
                (S (drawn (sample.world sample.table))))).
Proof.
  apply (proj2 backup_key_fixed_export_key_by_draw (sample.handler false)
           (sample.handler false) (sample.world sample.table));
    reflexivity.
Defined.

(** Against C1 as stated: two ad-hoc exports of the same query, one
    after the other, whose 16-byte draws differ (in bit 62, which
    [uuid4] overwrites) upload under one and the same key, and the
    second object replaces the first. *)
Lemma distinct_draws_one_key :
  (urandom (sample.world_colliding sample.table) 0
   =? urandom (sample.world_colliding sample.table) 1)%Z = false
  ∧ omap (λ e, match e with PutObject _ k _ _ => Some k | _ => None end)
         (trace
            (main.get_currency_rates sample.ext sample.export_request
               (Some aiobotocore.s3_client)
               (main.get_currency_rates sample.ext sample.export_request
                  (Some aiobotocore.s3_client)
                  (sample.world_colliding sample.table)).2).2)
    = ["01234567-89ab-4def-8123-456789abcdef.json";
       "01234567-89ab-4def-8123-456789abcdef.json"]
  ∧ drawn
      (main.get_currency_rates sample.ext sample.export_request
         (Some aiobotocore.s3_client)
         (main.get_currency_rates sample.ext sample.export_request
            (Some aiobotocore.s3_client)
            (sample.world_colliding sample.table)).2).2
    = 2%nat
  ∧ size
      (objects
         (main.get_currency_rates sample.ext sample.export_request
            (Some aiobotocore.s3_client)
            (main.get_currency_rates sample.ext sample.export_request
               (Some aiobotocore.s3_client)
               (sample.world_colliding sample.table)).2).2)
    = 1%nat.
Proof. repeat split; vm_compute; reflexivity. Qed.

(** Two exports and two backups of the sample store, one after the
    other: the uploads of the exports go to different keys, those of the
    backups to the same key. *)
Example consecutive_uploads :
  let export := {| schemas.startDate := None; schemas.endDate := None;
                   schemas.outputFormat := "csv"; schemas.isBackup := false |} in
  let client := Some aiobotocore.s3_client in
  let w0 := sample.world sample.table in
  let w1 := (main.get_currency_rates sample.ext export client w0).2 in
  let w2 := (main.get_currency_rates sample.ext export client w1).2 in
  let w3 := (main.get_currency_rates sample.ext main.backup_request client w2).2 in
  let w4 := (main.get_currency_rates sample.ext main.backup_request client w3).2 in
  omap (λ e, match e with PutObject _ k _ _ => Some k | _ => None end)
       (trace w4)
  = ["01234567-89ab-4def-8123-456789abcdef.csv";
     "02468acf-1357-4bde-8246-8acf13579bde.csv";
     "currency_rates_db_backup.parquet";
     "currency_rates_db_backup.parquet"].
Proof. vm_compute. reflexivity. Qed.

(** ** The latest-rate statement *)

Abbreviation by_code_then_latest :=
  (sql.lex (sql.asc sql.string_le models.letter_code)
           (sql.desc datetime.le models.date)).

Lemma by_code_then_latest_code (x y : models.CurrencyRate) :
  by_code_then_latest x y →
  sql.string_le (models.letter_code x) (models.letter_code y).
Proof. unfold sql.lex, sql.asc. tauto. Qed.

Lemma by_code_then_latest_date (x y : models.CurrencyRate) :
  by_code_then_latest x y →
  models.letter_code x = models.letter_code y →
  datetime.le (models.date y) (models.date x).
Proof.
  unfold sql.lex, sql.asc, sql.desc. intros [[_ Hn]|(_ & _ & H)] E; [|done].
  exfalso. apply Hn. rewrite E. reflexivity.
Qed.

Lemma distinct_on_from_sorted (p : models.CurrencyRate)
    (l : list models.CurrencyRate) :
  StronglySorted by_code_then_latest (p :: l) →
  (∀ x, x ∈ sql.distinct_on_from models.letter_code (models.letter_code p) l →
     x ∈ l
     ∧ models.letter_code x ≠ models.letter_code p
     ∧ ∀ y, y ∈ l → models.letter_code y = models.letter_code x →
            datetime.le (models.date y) (models.date x))
  ∧ (∀ y, y ∈ l →
       models.letter_code y = models.letter_code p
       ∨ ∃ x, x ∈ sql.distinct_on_from models.letter_code
                    (models.letter_code p) l
              ∧ models.letter_code x = models.letter_code y)
  ∧ NoDup (map models.letter_code
             (sql.distinct_on_from models.letter_code (models.letter_code p) l)).
Proof.
  revert p. induction l as [|y l IH]; intros p Hs.
  { simpl. split; [intros x H; by apply elem_of_nil in H|].
    split; [intros x H; by apply elem_of_nil in H|constructor]. }
  apply StronglySorted_inv in Hs as [Hyl Hp].
  apply Forall_cons in Hp as [Hpy Hpl].
  pose proof Hyl as Hyl'. apply StronglySorted_inv in Hyl' as [Hl Hy].
  cbn [sql.distinct_on_from]. destruct (decide _) as [E|NE].
  - destruct (IH p) as (I1 & I2 & I3); [by constructor|].
    split; [|split; [|exact I3]].
    + intros x Hx. destruct (I1 x Hx) as (Hxl & Hne & Hmax).
      split; [by right|]. split; [done|].
      intros z [->|Hz]%elem_of_cons Hc; [congruence|by apply Hmax].
    + intros z [->|Hz]%elem_of_cons; [by left|by apply I2].
  - destruct (IH y Hyl) as (I1 & I2 & I3).
    split; [|split].
    + intros x [->|Hx]%elem_of_cons.
      * split; [by left|]. split; [done|].
        intros z [->|Hz]%elem_of_cons Hc; [reflexivity|].
        apply by_code_then_latest_date; [|done].
        eapply Forall_forall in Hy; [exact Hy|done].
      * destruct (I1 x Hx) as (Hxl & Hne & Hmax).
        split; [by right|]. split.
        { intros Hc. apply NE. apply (anti_symm sql.string_le).
          - rewrite <- Hc. apply by_code_then_latest_code.
            eapply Forall_forall in Hy; [exact Hy|done].
          - by apply by_code_then_latest_code. }
        intros z [->|Hz]%elem_of_cons Hc; [congruence|by apply Hmax].
    + intros z [->|Hz]%elem_of_cons.
      * right. exists y. split; [by left|done].
      * destruct (I2 z Hz) as [Hc|(x & Hx & Hc)].
        -- right. exists y. split; [by left|done].
        -- right. exists x. split; [by right|done].
    + cbn [map]. constructor; [|exact I3].
      intros (x & Hc & Hx)%list_elem_of_fmap.
      destruct (I1 x Hx) as (_ & Hne & _). congruence.
Qed.

Lemma distinct_on_sorted (l : list models.CurrencyRate) :
  StronglySorted by_code_then_latest l →
  (∀ x, x ∈ sql.distinct_on models.letter_code l →
     x ∈ l
     ∧ ∀ y, y ∈ l → models.letter_code y = models.letter_code x →
            datetime.le (models.date y) (models.date x))
  ∧ (∀ y, y ∈ l →
       ∃ x, x ∈ sql.distinct_on models.letter_code l
            ∧ models.letter_code x = models.letter_code y)
  ∧ NoDup (map models.letter_code (sql.distinct_on models.letter_code l)).
Proof.
  destruct l as [|p l]; intros Hs.
  { simpl. split; [intros x H; by apply elem_of_nil in H|].
    split; [intros x H; by apply elem_of_nil in H|constructor]. }
  destruct (distinct_on_from_sorted p l Hs) as (I1 & I2 & I3).
  apply StronglySorted_inv in Hs as [Hl Hp].
  cbn [sql.distinct_on]. split; [|split].
  - intros x [->|Hx]%elem_of_cons.
    + split; [by left|].
      intros z [->|Hz]%elem_of_cons Hc; [reflexivity|].
      apply by_code_then_latest_date; [|done].
      eapply Forall_forall in Hp; [exact Hp|done].
    + destruct (I1 x Hx) as (Hxl & Hne & Hmax).
      split; [by right|].
      intros z [->|Hz]%elem_of_cons Hc; [congruence|by apply Hmax].
  - intros z [->|Hz]%elem_of_cons.
    + exists p. split; [by left|done].
    + destruct (I2 z Hz) as [Hc|(x & Hx & Hc)].
      * exists p. split; [by left|done].
      * exists x. split; [by right|done].
  - cbn [map]. constructor; [|exact I3].
    intros (x & Hc & Hx)%list_elem_of_fmap.
    destruct (I1 x Hx) as (_ & Hne & _). congruence.
Qed.

Lemma subquery_facts (table : list models.CurrencyRate) :
  ∃ picked,
    main.subquery table = map spec.reading picked
    ∧ (∀ x, x ∈ picked → x ∈ table ∧ spec.is_latest_of table x)
    ∧ (∀ y, y ∈ table →
         ∃ x, x ∈ picked ∧ models.letter_code x = models.letter_code y)
    ∧ NoDup (map models.letter_code picked).
Proof.
  exists (sql.distinct_on models.letter_code
            (sql.order_by by_code_then_latest table)).
  split; [reflexivity|].
  pose proof (StronglySorted_merge_sort by_code_then_latest table) as Hs.
  pose proof (merge_sort_Permutation by_code_then_latest table) as Hp.
  apply distinct_on_sorted in Hs as (I1 & I2 & I3). unfold sql.order_by.
  split; [|split; [|exact I3]].
  - intros x Hx. destruct (I1 x Hx) as [Hin Hmax].
    split; [by rewrite <- Hp|].
    intros other Ho Hc. apply Hmax; [by rewrite Hp|done].
  - intros y Hy. apply I2. by rewrite Hp.
Qed.

Lemma join_condition_reading (row : models.CurrencyRate)
    (c : string * datetime.date * models.float) :
  main.join_condition row c = true ↔ spec.reading row = c.
Proof.
  destruct c as [[code d] rate]. unfold main.join_condition, spec.reading.
  cbn [fst snd]. rewrite !andb_true_iff, !bool_decide_eq_true.
  split; [intros [[-> ->] ->]; reflexivity|intros [= -> -> ->]; done].
Qed.

Lemma filter_at_most_one {B K} (k : B → K) (f : B → bool) (c : K)
    (l : list B) :
  NoDup (map k l) → (∀ s, f s = true → k s = c) →
  (length (List.filter f l) <= 1)%nat.
Proof.
  intros Hnd Hf. induction l as [|s l IH]; [simpl; lia|].
  cbn [map] in Hnd. apply NoDup_cons in Hnd as [Hs Hnd].
  cbn [List.filter]. destruct (f s) eqn:Es; [|by apply IH].
  assert (List.filter f l = []) as ->; [|simpl; lia].
  destruct (List.filter f l) as [|t ts] eqn:El; [reflexivity|].
  exfalso. apply Hs.
  assert (In t (List.filter f l)) as Ht by (rewrite El; by left).
  apply List.filter_In in Ht as [Ht Hft].
  rewrite (Hf s Es), <- (Hf t Hft).
  apply list_elem_of_fmap_2. by apply list_elem_of_In.
Qed.

Lemma existsb_filter {B} (f : B → bool) (l : list B) :
  existsb f l = match List.filter f l with [] => false | _ => true end.
Proof.
  induction l as [|s l IH]; [reflexivity|]. cbn [existsb List.filter].
  destruct (f s); [reflexivity|exact IH].
Qed.

Lemma join_as_filter {A B} (on : A → B → bool) (left : list A)
    (right : list B) :
  (∀ l, length (List.filter (on l) right) <= 1)%nat →
  sql.join on left right = List.filter (λ l, existsb (on l) right) left.
Proof.
  intros Hone. unfold sql.join.
  induction left as [|l left IH]; [reflexivity|].
  cbn [flat_map List.filter]. rewrite IH, existsb_filter.
  specialize (Hone l).
  destruct (List.filter (on l) right) as [|s [|t ts]];
    [reflexivity|reflexivity|simpl in Hone; lia].
Qed.

Lemma NoDup_map_filter {A K1 K2} (f : A → K1) (g : A → K2) (P : A → bool)
    (l : list A) :
  NoDup (map g l) →
  (∀ x y, x ∈ List.filter P l → y ∈ List.filter P l → f x = f y → g x = g y) →
  NoDup (map f (List.filter P l)).
Proof.
  induction l as [|a l IH]; intros Hnd Hfg; [constructor|].
  cbn [map] in Hnd. apply NoDup_cons in Hnd as [Ha Hnd].
  cbn [List.filter] in *. destruct (P a) eqn:Ea.
  - cbn [map]. constructor.
    + intros (y & Hy & Hin)%list_elem_of_fmap. apply Ha.
      rewrite (Hfg a y); [| by left | by right | done].
      apply list_elem_of_fmap_2.
      apply list_elem_of_In, List.filter_In in Hin as [Hin _].
      by apply list_elem_of_In.
    + apply IH; [done|]. intros x y Hx Hy. apply Hfg; by right.
  - by apply IH.
Qed.

Lemma NoDup_map_inj_on {A K} (k : A → K) (l : list A) (x y : A) :
  NoDup (map k l) → x ∈ l → y ∈ l → k x = k y → x = y.
Proof.
  induction l as [|a l IH]; intros Hnd Hx Hy Hk;
    [by apply elem_of_nil in Hx|].
  cbn [map] in Hnd. apply NoDup_cons in Hnd as [Ha Hnd].
  apply elem_of_cons in Hx as [->|Hx]; apply elem_of_cons in Hy as [->|Hy].
  - reflexivity.
  - exfalso. apply Ha. rewrite Hk. by apply list_elem_of_fmap_2.
  - exfalso. apply Ha. rewrite <- Hk. by apply list_elem_of_fmap_2.
  - by apply IH.
Qed.

Lemma filter_filter_andb {A} (f g : A → bool) (l : list A) :
  List.filter f (List.filter g l) = List.filter (λ x, g x && f x) l.
Proof.
  induction l as [|a l IH]; [reflexivity|]. cbn [List.filter].
  destruct (g a); cbn [andb List.filter]; [|exact IH].
  destruct (f a); by rewrite IH.
Qed.

Lemma latest_statement_as_filter (codes : option (list string))
    (table : list models.CurrencyRate) :
  main.latest_statement codes table
  = List.filter
      (λ row, existsb (main.join_condition row) (main.subquery table)
              && bool_decide (spec.requested codes (models.letter_code row)))
      table.
Proof.
  unfold main.latest_statement.
  rewrite join_as_filter.
  - destruct codes as [[|c cs]|]; cbn [spec.requested].
    + apply List.filter_ext. intros row.
      by rewrite bool_decide_eq_true_2, andb_true_r.
    + unfold sql.where_. rewrite filter_filter_andb.
      apply List.filter_ext. intros row. cbn [forallb].
      by rewrite andb_true_r.
    + apply List.filter_ext. intros row.
      by rewrite bool_decide_eq_true_2, andb_true_r.
  - intros row. destruct (subquery_facts table) as (picked & -> & _ & _ & Hnd).
    apply (filter_at_most_one (λ c, c.1.1) _ (models.letter_code row)).
    + by rewrite map_map.
    + intros s Hs. apply join_condition_reading in Hs. by subst s.
Qed.

Lemma latest_statement_elem (codes : option (list string))
    (table : list models.CurrencyRate) (x : models.CurrencyRate) :
  x ∈ main.latest_statement codes table ↔
  x ∈ table
  ∧ spec.requested codes (models.letter_code x)
  ∧ spec.reading x ∈ main.subquery table.
Proof.
  rewrite latest_statement_as_filter.
  rewrite list_elem_of_In, List.filter_In, andb_true_iff, bool_decide_eq_true.
  rewrite <- list_elem_of_In, List.existsb_exists.
  split.
  - intros (Hx & (s & Hs & Hj) & Hr). split; [done|]. split; [done|].
    apply join_condition_reading in Hj. subst s. by apply list_elem_of_In.
  - intros (Hx & Hr & Hs). split; [done|]. split; [|done].
    exists (spec.reading x). split; [by apply list_elem_of_In|].
    by apply join_condition_reading.
Qed.

Lemma latest_readings_agree (codes : option (list string))
    (table : list models.CurrencyRate) (x y : models.CurrencyRate) :
  x ∈ main.latest_statement codes table →
  y ∈ main.latest_statement codes table →
  models.letter_code x = models.letter_code y →
  spec.reading x = spec.reading y.
Proof.
  intros (_ & _ & Hx)%latest_statement_elem
    (_ & _ & Hy)%latest_statement_elem Hc.
  destruct (subquery_facts table) as (picked & Hsub & _ & _ & Hnd).
  rewrite Hsub in Hx, Hy.
  apply list_elem_of_fmap in Hx as (x0 & Ex & Hx0).
  apply list_elem_of_fmap in Hy as (y0 & Ey & Hy0).
  rewrite Ex, Ey. f_equal.
  apply (NoDup_map_inj_on models.letter_code picked); [done..|].
  injection Ex as Ex _ _. injection Ey as Ey _ _. congruence.
Qed.

Lemma latest_rows_of_code (codes : option (list string))
    (table : list models.CurrencyRate) (x : models.CurrencyRate) :
  x ∈ main.latest_statement codes table →
  List.filter
    (λ y, bool_decide (models.letter_code y = models.letter_code x))
    (main.latest_statement codes table)
  = List.filter (λ y, bool_decide (spec.reading y = spec.reading x)) table.
Proof.
  intros Hx. rewrite (latest_statement_as_filter codes table) at 1.
  rewrite filter_filter_andb. apply List.filter_ext_in. intros y Hy.
  apply list_elem_of_In in Hy. apply eq_true_iff_eq.
  rewrite andb_true_iff, !bool_decide_eq_true.
  split.
  - intros [HP Hc]. symmetry.
    apply (latest_readings_agree codes table x y); [done| |done].
    rewrite latest_statement_as_filter.
    apply list_elem_of_In, List.filter_In. split; [|exact HP].
    by apply list_elem_of_In.
  - intros Hr.
    assert (models.letter_code y = models.letter_code x) as Hc
      by (by injection Hr).
    split; [|exact Hc].
    assert (y ∈ main.latest_statement codes table) as Hin.
    { apply latest_statement_elem in Hx as (_ & Hreq & Hsub).
      apply latest_statement_elem. rewrite Hc, Hr. done. }
    rewrite latest_statement_as_filter in Hin.
    by apply list_elem_of_In, List.filter_In in Hin as [_ Hin].
Qed.

(** X20: what GET /currency-rates/latest selects.  Every row is a stored
    record of a requested code that carries the maximum date stored for
    its code; every requested code that has a stored record gets a row;
    and the rows of one code are exactly the stored records that carry
    the reading picked for that code (code, date and rate), each as
    often as it is stored: one row when that reading is stored once,
    whatever older records repeat. *)
Theorem latest_rates_rows (codes : option (list string)) (w : World) :
  (main.select_latest codes w).1
  = inr (main.latest_statement codes (currency_rates w))
  ∧ (∀ x, x ∈ main.latest_statement codes (currency_rates w) →
       x ∈ currency_rates w
       ∧ spec.requested codes (models.letter_code x)
       ∧ spec.is_latest_of (currency_rates w) x)
  ∧ (∀ y, y ∈ currency_rates w →
       spec.requested codes (models.letter_code y) →
       ∃ x, x ∈ main.latest_statement codes (currency_rates w)
            ∧ models.letter_code x = models.letter_code y)
  ∧ (∀ x, x ∈ main.latest_statement codes (currency_rates w) →
       List.filter
         (λ y, bool_decide (models.letter_code y = models.letter_code x))
         (main.latest_statement codes (currency_rates w))
       ≡ₚ List.filter
            (λ y, bool_decide (spec.reading y = spec.reading x))
            (currency_rates w)).
Proof.
  split; [reflexivity|].
  destruct (subquery_facts (currency_rates w))
    as (picked & Hsub & Hpick & Hall & Hnd).
  split; [|split].
  - intros x (Hx & Hr & Hs)%latest_statement_elem.
    split; [done|]. split; [done|].
    rewrite Hsub in Hs. apply list_elem_of_fmap in Hs as (x0 & E & Hx0).
    destruct (Hpick x0 Hx0) as [_ Hmax]. injection E as Ec Ed _.
    intros other Ho Hc. rewrite Ed. apply Hmax; [done|congruence].
  - intros y Hy Hr. destruct (Hall y Hy) as (x & Hx & Hc).
    exists x. split; [|done]. apply latest_statement_elem.
    destruct (Hpick x Hx) as [Hin _].
    split; [done|]. split; [by rewrite Hc|].
    rewrite Hsub. by apply list_elem_of_fmap_2.
  - intros x Hx. by rewrite latest_rows_of_code.
Qed.

(** C2, at a store that holds one submission twice: the latest-rates
    statement for the single code USD returns both stored records, where
    the claim promises one record per requested code. *)
Lemma resubmitted_rate_is_returned_twice :
  (main.get_latest_rates sample.ext (Some ["USD"])
     (sample.world sample.table_resubmitted)).1
  = inr (map main.rate_dict sample.table_resubmitted)
  ∧ map models.id
      (main.latest_statement (Some ["USD"]) sample.table_resubmitted)
    = [1; 2]
  ∧ map models.letter_code
      (main.latest_statement (Some ["USD"]) sample.table_resubmitted)
    = ["USD"; "USD"].
Proof. repeat split; vm_compute; reflexivity. Qed.

(** * Further properties of the code *)

(** ** What a run of the pipeline changes *)

Ltac world_fields :=
  cbn [currency_rates objects urandom drawn trace fst snd].

Lemma upload_contents_effects ext self w :
  handlers.key_cached self = None →
  ∃ evs,
    trace (handlers.upload_contents ext self w).2 = trace w ++ evs
    ∧ currency_rates (handlers.upload_contents ext self w).2
      = currency_rates w
    ∧ urandom (handlers.upload_contents ext self w).2 = urandom w
    ∧ (drawn (handlers.upload_contents ext self w).2 = drawn w
       ∨ (handlers._is_backup self = false
          ∧ drawn (handlers.upload_contents ext self w).2 = S (drawn w)))
    ∧ (∀ e, e ∈ evs →
         e = Encode (handlers.extension (handlers.cls self))
         ∨ ∃ b name d,
             e = PutObject b
                   (name +:+ "." +:+ handlers.extension (handlers.cls self))
                   d (handlers.content_type (handlers.cls self))
             ∧ OBS_BUCKET ext = Some b
             ∧ if handlers._is_backup self
               then name = "currency_rates_db_backup"
               else name = uuid.str (uuid.uuid4 (urandom w (drawn w))))
    ∧ match (handlers.upload_contents ext self w).1 with
      | inr self' =>
          ∃ b k d,
            handlers.key_cached self' = Some k
            ∧ PutObject b k d (handlers.content_type (handlers.cls self))
              ∈ evs
            ∧ s3_put_object ext b k = None
            ∧ objects (handlers.upload_contents ext self w).2
              = <[(b, k) := {| s3_body := d;
                               s3_content_type :=
                                 handlers.content_type (handlers.cls self) |}]>
                  (objects w)
      | inl _ => objects (handlers.upload_contents ext self w).2 = objects w
      end.
Proof.
  intros Hk. unfold_handler.
  destruct (handlers.body_cached self) eqn:Hbc;
  [|destruct (handlers.writer ext (handlers.cls self) (handlers.df self))
      as [e|data] eqn:Hw];
  handler_fields;
  destruct (handlers.client self) as [c|] eqn:Hc;
  destruct (OBS_BUCKET ext) as [b|] eqn:Hb;
  rewrite ?Hk;
  destruct (handlers._is_backup self) eqn:Hib;
  handler_fields.
  all: try match goal with
           | |- context [s3_put_object ?x ?b ?k] =>
               destruct (s3_put_object x b k) eqn:Hput
           end.
  all: handler_fields; world_fields; rewrite <- ?app_assoc.
  all: eexists; split; [reflexivity || (rewrite app_nil_r; reflexivity)|].
  all: split; [reflexivity|]; split; [reflexivity|].
  all: split; [first [by left | by right]|].
  all: split;
    [intros ev Hev; in_events Hev; subst ev;
     first [by left | right; eexists _, _, _; by repeat split]|].
  all: try reflexivity.
  all: eexists _, _, _; split; [reflexivity|]; split; [find_event|];
    split; [eassumption|reflexivity].
Qed.

Lemma generate_url_effects ext self w k :
  handlers.key_cached self = Some k →
  currency_rates (handlers.generate_url ext self w).2 = currency_rates w
  ∧ urandom (handlers.generate_url ext self w).2 = urandom w
  ∧ drawn (handlers.generate_url ext self w).2 = drawn w
  ∧ objects (handlers.generate_url ext self w).2 = objects w.
Proof.
  intros Hk. unfold_handler.
  destruct (handlers.client self) as [c|] eqn:Hc;
  destruct (OBS_BUCKET ext) as [b|] eqn:Hb; handler_fields; rewrite ?Hk.
  all: try match goal with
           | |- context [s3_presigned_url ?x ?b ?k] =>
               destruct (s3_presigned_url x b k) as [e1|long] eqn:Hpre
           end; handler_fields.
  all: try match goal with
           | |- context [spoo_shorten ?x ?u] =>
               destruct (spoo_shorten x u) as [e2|short] eqn:Hsh
           end; handler_fields.
  all: world_fields; done.
Qed.

Lemma get_currency_rates_effects ext r client w :
  ∃ evs,
    trace (main.get_currency_rates ext r client w).2
    = trace w
        ++ Execute (SelectRange (schemas.startDate r) (schemas.endDate r))
           :: evs
    ∧ currency_rates (main.get_currency_rates ext r client w).2
      = currency_rates w
    ∧ urandom (main.get_currency_rates ext r client w).2 = urandom w
    ∧ (drawn (main.get_currency_rates ext r client w).2 = drawn w
       ∨ (schemas.isBackup r = false
          ∧ drawn (main.get_currency_rates ext r client w).2 = S (drawn w)))
    ∧ (∀ e, e ∈ evs →
         spec.is_link_event e = true
         ∨ e = Encode (schemas.outputFormat r)
         ∨ ∃ cls b name d,
             e = PutObject b (name +:+ "." +:+ schemas.outputFormat r) d
                   (handlers.content_type cls)
             ∧ schemas.available_output_formats !! schemas.outputFormat r
               = Some cls
             ∧ OBS_BUCKET ext = Some b
             ∧ if schemas.isBackup r
               then name = "currency_rates_db_backup"
               else name = uuid.str (uuid.uuid4 (urandom w (drawn w))))
    ∧ (objects (main.get_currency_rates ext r client w).2 = objects w
       ∨ ∃ b k d ct,
           PutObject b k d ct ∈ evs
           ∧ s3_put_object ext b k = None
           ∧ objects (main.get_currency_rates ext r client w).2
             = <[(b, k) := {| s3_body := d; s3_content_type := ct |}]>
                 (objects w)).
Proof.
  rewrite get_currency_rates_unfold.
  set (w1 := record_events w _).
  assert (trace w1 = trace w
            ++ [Execute (SelectRange (schemas.startDate r) (schemas.endDate r))])
    as Hw1 by reflexivity.
  assert (currency_rates w1 = currency_rates w) as Hc1 by reflexivity.
  assert (urandom w1 = urandom w) as Hu1 by reflexivity.
  assert (drawn w1 = drawn w) as Hd1 by reflexivity.
  assert (objects w1 = objects w) as Ho1 by reflexivity.
  clearbody w1.
  destruct (sql.order_by main.columns _) as [|s ss].
  { unfold main.handle_entries, mbind, M_bind, lift, raise, mret, M_ret.
    destruct (schemas.Response_of ext r None _) as [e|resp];
      cbn [fst snd]; exists []; rewrite Hw1;
      (split; [reflexivity|]); (split; [done|]); (split; [done|]);
      (split; [by left|]);
      (split; [intros e' H; by apply elem_of_nil in H|]); by left. }
  unfold main.handle_entries, mbind, M_bind.
  destruct (schemas.available_output_formats !! schemas.outputFormat r)
    as [cls|] eqn:Hl; unfold raise, mret, M_ret; cbn [fst snd].
  2:{ exists []. rewrite Hw1. split; [reflexivity|]. split; [done|].
      split; [done|]. split; [by left|].
      split; [intros e' H; by apply elem_of_nil in H|]. by left. }
  apply available_output_formats_lookup in Hl as Hext.
  rewrite <- Hl.
  rewrite init_nonempty. unfold lift, mret, M_ret.
  set (h := handlers.mkScalarsHandler _ _ _ _ _ _ _).
  destruct (upload_contents_effects ext h w1 eq_refl)
    as (evs1 & Ht1 & Hcr1 & Hur1 & Hdr1 & Hsh1 & Hob1).
  cbn [h handlers.cls handlers._is_backup] in Hdr1, Hsh1, Hob1.
  rewrite Hext, Hu1, Hd1 in Hsh1.
  assert (∀ e, e ∈ evs1 →
            spec.is_link_event e = true
            ∨ e = Encode (schemas.outputFormat r)
            ∨ ∃ cls b name d,
                e = PutObject b (name +:+ "." +:+ schemas.outputFormat r) d
                      (handlers.content_type cls)
                ∧ schemas.available_output_formats !! schemas.outputFormat r
                  = Some cls
                ∧ OBS_BUCKET ext = Some b
                ∧ if schemas.isBackup r
                  then name = "currency_rates_db_backup"
                  else name = uuid.str (uuid.uuid4 (urandom w (drawn w))))
    as Hshape1.
  { intros e He. right. destruct (Hsh1 e He) as [->|(b & name & d & -> & Hb & Hn)];
      [by left|right]. exists cls, b, name, d. done. }
  assert (drawn (handlers.upload_contents ext h w1).2 = drawn w
          ∨ schemas.isBackup r = false
            ∧ drawn (handlers.upload_contents ext h w1).2 = S (drawn w))
    as Hdr1' by (rewrite <- Hd1; exact Hdr1).
  destruct (handlers.upload_contents ext h w1) as [[e|h'] w2].
  { cbn [fst snd] in *. exists evs1. rewrite Ht1, Hw1, <- app_assoc.
    split; [reflexivity|]. split; [congruence|]. split; [congruence|].
    split; [exact Hdr1'|]. split; [exact Hshape1|]. left. congruence. }
  cbn [fst snd] in *.
  destruct Hob1 as (b & k & d & Hk & Hin & Hput & Hobj).
  destruct (schemas.isBackup r) eqn:Hbk.
  { cbn [fst snd]. exists evs1. rewrite Ht1, Hw1, <- app_assoc.
    split; [reflexivity|]. split; [congruence|]. split; [congruence|].
    split; [exact Hdr1'|]. split; [exact Hshape1|].
    right. exists b, k, d, (handlers.content_type cls).
    split; [done|]. split; [done|]. by rewrite Hobj, Ho1. }
  destruct (generate_url_spec ext h' w2 k Hk) as (evs2 & Ht2 & Hlink & _ & _).
  destruct (generate_url_effects ext h' w2 k Hk) as (Hcr2 & Hur2 & Hdr2 & Hob2).
  assert (∀ e, e ∈ evs1 ++ evs2 →
            spec.is_link_event e = true
            ∨ e = Encode (schemas.outputFormat r)
            ∨ ∃ cls b name d,
                e = PutObject b (name +:+ "." +:+ schemas.outputFormat r) d
                      (handlers.content_type cls)
                ∧ schemas.available_output_formats !! schemas.outputFormat r
                  = Some cls
                ∧ OBS_BUCKET ext = Some b
                ∧ name = uuid.str (uuid.uuid4 (urandom w (drawn w))))
    as Hshape.
  { intros e [He|He]%elem_of_app; [by apply Hshape1|].
    left. eapply Forall_forall in Hlink; [exact Hlink|done]. }
  assert (PutObject b k d (handlers.content_type cls) ∈ evs1 ++ evs2)
    as Hin' by (apply elem_of_app; by left).
  destruct (handlers.generate_url ext h' w2) as [[e|[u h'']] w3];
    cbn [fst snd] in *.
  { exists (evs1 ++ evs2). rewrite Ht2, Ht1, Hw1, <- !app_assoc.
    split; [reflexivity|]. split; [congruence|]. split; [congruence|].
    split; [rewrite Hdr2; exact Hdr1'|]. split; [exact Hshape|].
    right. exists b, k, d, (handlers.content_type cls).
    split; [done|]. split; [done|]. by rewrite Hob2, Hobj, Ho1. }
  unfold lift, raise, mret, M_ret.
  destruct (schemas.Response_of ext r (Some u) None) as [e|resp];
    cbn [fst snd]; exists (evs1 ++ evs2);
    rewrite Ht2, Ht1, Hw1, <- !app_assoc;
    (split; [reflexivity|]); (split; [congruence|]); (split; [congruence|]);
    (split; [rewrite Hdr2; exact Hdr1'|]); (split; [exact Hshape|]);
    right; exists b, k, d, (handlers.content_type cls);
    (split; [done|]); (split; [done|]); by rewrite Hob2, Hobj, Ho1.
Qed.

(** X1: a run of GET /currency-rates, whatever its outcome, leaves the
    stored records and the entropy stream as they were; it consumes no
    draw when the backup flag is set and at most one otherwise. *)
Theorem export_never_changes_store (ext : Externals) (r : schemas.Request)
    (client : option aiobotocore.AioBaseClient) (w : World) :
  currency_rates (main.get_currency_rates ext r client w).2 = currency_rates w
  ∧ urandom (main.get_currency_rates ext r client w).2 = urandom w
  ∧ (drawn (main.get_currency_rates ext r client w).2 = drawn w
     ∨ (schemas.isBackup r = false
        ∧ drawn (main.get_currency_rates ext r client w).2 = S (drawn w))).
Proof.
  destruct (get_currency_rates_effects ext r client w)
    as (evs & _ & Hc & Hu & Hd & _). done.
Qed.

(** ** The paths of one export *)

Ltac enter_pipeline Hs Hl :=
  rewrite get_currency_rates_unfold, Hs;
  unfold main.handle_entries, mbind, M_bind; rewrite Hl;
  unfold mret, M_ret; rewrite init_nonempty; unfold lift, mret, M_ret;
  unfold_handler; handler_fields.

(** X2: an ad-hoc request that selects records, with storage configured
    and every outside call succeeding, encodes the selected records,
    uploads the bytes under the fresh key with the format's content
    type, generates the link for that key, shortens it, and answers with
    the short link and no comment. *)
Theorem export_run ext r c w s ss cls bucket data long short :
  schemas.isBackup r = false →
  (main.select_entries r w).1 = inr (s :: ss) →
  schemas.available_output_formats !! schemas.outputFormat r = Some cls →
  OBS_BUCKET ext = Some bucket →
  handlers.writer ext cls (spec.tabular (s :: ss)) = inr data →
  s3_put_object ext bucket (spec.export_key w cls) = None →
  s3_presigned_url ext bucket (spec.export_key w cls) = inr long →
  spoo_shorten ext long = inr short →
  ∃ resp w',
    main.get_currency_rates ext r (Some c) w = (inr (main.Json resp), w')
    ∧ schemas.url resp = Some short
    ∧ schemas.comment resp = None
    ∧ schemas.r_outputFormat resp = schemas.outputFormat r
    ∧ trace w'
      = trace w
          ++ [Execute (SelectRange (schemas.startDate r) (schemas.endDate r));
              Encode (handlers.extension cls);
              PutObject bucket (spec.export_key w cls) data
                (handlers.content_type cls);
              GeneratePresignedUrl bucket (spec.export_key w cls);
              Shorten long]
    ∧ objects w'
      = <[(bucket, spec.export_key w cls)
          := {| s3_body := data;
                s3_content_type := handlers.content_type cls |}]>
          (objects w)
    ∧ drawn w' = S (drawn w).
Proof.
  rewrite select_entries_run. cbn [fst]. unfold spec.export_key.
  intros Hb [= Hs] Hl Hbk Hw Hput Hpre Hsh.
  assert (schemas.outputFormats (schemas.outputFormat r) = true) as Hf
    by (apply outputFormats_spec; exists cls;
        by apply available_output_formats_lookup).
  enter_pipeline Hs Hl. rewrite Hw, Hb. handler_fields.
  rewrite Hbk. handler_fields. world_fields.
  rewrite Hput, write_empty. handler_fields. world_fields.
  rewrite Hpre. handler_fields. world_fields.
  rewrite Hsh. handler_fields.
  rewrite (Response_of_ok ext r _ _ Hf).
  eexists _, _. split; [reflexivity|]. world_fields.
  rewrite <- !app_assoc. done.
Qed.

(** The theorem at a CSV export of the sample store. *)
Lemma export_run_witness :
  ∃ resp w',
    main.get_currency_rates sample.ext
      {| schemas.startDate := None; schemas.endDate := None;
         schemas.outputFormat := "csv"; schemas.isBackup := false |}
      (Some aiobotocore.s3_client) (sample.world sample.table)
    = (inr (main.Json resp), w')
    ∧ schemas.url resp = Some "https://spoo.me/abc"
    ∧ schemas.comment resp = None
    ∧ schemas.r_outputFormat resp = "csv"
    ∧ trace w'
      = trace (sample.world sample.table)
          ++ [Execute (SelectRange None None);
              Encode (handlers.extension handlers.CSVMaker);
              PutObject "rates"
                (spec.export_key (sample.world sample.table)
                   handlers.CSVMaker)
                [Byte.x63; Byte.x0a; Byte.x0a; Byte.x0a; Byte.x0a; Byte.x0a]
                (handlers.content_type handlers.CSVMaker);
              GeneratePresignedUrl "rates"
                (spec.export_key (sample.world sample.table)
                   handlers.CSVMaker);
              Shorten
                "https://obs/rates/01234567-89ab-4def-8123-456789abcdef.csv"]
    ∧ objects w'
      = <[("rates",
           spec.export_key (sample.world sample.table) handlers.CSVMaker)
          := {| s3_body :=
                  [Byte.x63; Byte.x0a; Byte.x0a; Byte.x0a; Byte.x0a; Byte.x0a];
                s3_content_type :=
                  handlers.content_type handlers.CSVMaker |}]>
          (objects (sample.world sample.table))
    ∧ drawn w' = S (drawn (sample.world sample.table)).
Proof.
  apply (export_run sample.ext
           {| schemas.startDate := None; schemas.endDate := None;
              schemas.outputFormat := "csv"; schemas.isBackup := false |}
           aiobotocore.s3_client (sample.world sample.table)
           sample.oldest sample.later handlers.CSVMaker "rates"
           [Byte.x63; Byte.x0a; Byte.x0a; Byte.x0a; Byte.x0a; Byte.x0a]
           "https://obs/rates/01234567-89ab-4def-8123-456789abcdef.csv"
           "https://spoo.me/abc");
    vm_compute; reflexivity.
Defined.

(** X3: when a writer fails, the exception leaves the endpoint after the
    SELECT and the encoding attempt; nothing is uploaded, no key is
    drawn, and this is so with or without a storage client and whatever
    the backup flag. *)
Theorem encoder_failure_stops_before_upload ext r client w s ss cls e :
  (main.select_entries r w).1 = inr (s :: ss) →
  schemas.available_output_formats !! schemas.outputFormat r = Some cls →
  handlers.writer ext cls (spec.tabular (s :: ss)) = inl e →
  main.get_currency_rates ext r client w
  = (inl e,
     record_events w
       [Execute (SelectRange (schemas.startDate r) (schemas.endDate r));
        Encode (handlers.extension cls)]).
Proof.
  rewrite select_entries_run. cbn [fst]. intros [= Hs] Hl Hw.
  enter_pipeline Hs Hl. rewrite Hw. handler_fields.
  unfold record_events. world_fields. by rewrite <- app_assoc.
Qed.

Lemma encoder_failure_stops_before_upload_witness :
  main.get_currency_rates
    (sample.deployment (Some "rates") (λ _, inl EncodingError) None
       (inr "https://spoo.me/abc"))
    sample.export_request (Some aiobotocore.s3_client)
    (sample.world sample.table)
  = (inl EncodingError,
     record_events (sample.world sample.table)
       [Execute (SelectRange (schemas.startDate sample.export_request)
                             (schemas.endDate sample.export_request));
        Encode (handlers.extension handlers.JSONMaker)]).
Proof.
  apply (encoder_failure_stops_before_upload _ sample.export_request _ _
           sample.oldest sample.later handlers.JSONMaker EncodingError);
    vm_compute; reflexivity.
Defined.

(** X4: with a storage client but no OBS_BUCKET setting, a request that
    selects records fails with the settings error for OBS_BUCKET after
    the encoding; no key is drawn and nothing is uploaded. *)
Theorem missing_bucket_setting_raises ext r c w s ss cls data :
  (main.select_entries r w).1 = inr (s :: ss) →
  schemas.available_output_formats !! schemas.outputFormat r = Some cls →
  handlers.writer ext cls (spec.tabular (s :: ss)) = inr data →
  OBS_BUCKET ext = None →
  main.get_currency_rates ext r (Some c) w
  = (inl (EnvError "OBS_BUCKET"),
     record_events w
       [Execute (SelectRange (schemas.startDate r) (schemas.endDate r));
        Encode (handlers.extension cls)]).
Proof.
  rewrite select_entries_run. cbn [fst]. intros [= Hs] Hl Hw Hbk.
  enter_pipeline Hs Hl. rewrite Hw. handler_fields. rewrite Hbk.
  unfold record_events. world_fields. by rewrite <- app_assoc.
Qed.

Lemma missing_bucket_setting_raises_witness :
  main.get_currency_rates
    (sample.deployment None (sample.encode_rows Byte.x6a) None
       (inr "https://spoo.me/abc"))
    sample.export_request (Some aiobotocore.s3_client)
    (sample.world sample.table)
  = (inl (EnvError "OBS_BUCKET"),
     record_events (sample.world sample.table)
       [Execute (SelectRange (schemas.startDate sample.export_request)
                             (schemas.endDate sample.export_request));
        Encode (handlers.extension handlers.JSONMaker)]).
Proof.
  apply (missing_bucket_setting_raises _ sample.export_request
           aiobotocore.s3_client _ sample.oldest sample.later
           handlers.JSONMaker
           [Byte.x6a; Byte.x0a; Byte.x0a; Byte.x0a; Byte.x0a; Byte.x0a]);
    vm_compute; reflexivity.
Defined.

(** X5: without a storage client (a deployment with a storage setting
    missing), every request that selects records fails with
    AttributeError on the null client once the records are encoded,
    whatever the format and the backup flag; nothing is uploaded. *)
Theorem null_client_raises ext r w s ss cls data :
  botocore_client.S3_ENABLED ext = false →
  (main.select_entries r w).1 = inr (s :: ss) →
  schemas.available_output_formats !! schemas.outputFormat r = Some cls →
  handlers.writer ext cls (spec.tabular (s :: ss)) = inr data →
  main.get_currency_rates ext r (botocore_client.get_async_client ext) w
  = (inl (AttributeError "'NoneType' object has no attribute 'put_object'"),
     record_events w
       [Execute (SelectRange (schemas.startDate r) (schemas.endDate r));
        Encode (handlers.extension cls)]).
Proof.
  intros Hoff. rewrite (disabled_client_none ext Hoff).
  rewrite select_entries_run. cbn [fst]. intros [= Hs] Hl Hw.
  enter_pipeline Hs Hl. rewrite Hw. handler_fields.
  unfold record_events. world_fields. by rewrite <- app_assoc.
Qed.

Lemma null_client_raises_witness :
  main.get_currency_rates sample.ext_disabled main.backup_request
    (botocore_client.get_async_client sample.ext_disabled)
    (sample.world sample.table)
  = (inl (AttributeError "'NoneType' object has no attribute 'put_object'"),
     record_events (sample.world sample.table)
       [Execute (SelectRange (schemas.startDate main.backup_request)
                             (schemas.endDate main.backup_request));
        Encode (handlers.extension handlers.ParquetMaker)]).
Proof.
  apply (null_client_raises sample.ext_disabled main.backup_request _
           sample.oldest sample.later handlers.ParquetMaker
           [Byte.x70; Byte.x0a; Byte.x0a; Byte.x0a; Byte.x0a; Byte.x0a]);
    vm_compute; reflexivity.
Defined.

(** X6: when the object store rejects the upload, its exception leaves
    the endpoint: the bucket is as before, and neither a link generation
    nor a shortening is attempted. *)
Theorem rejected_upload_gives_no_link ext r c w s ss cls bucket data k e :
  (main.select_entries r w).1 = inr (s :: ss) →
  schemas.available_output_formats !! schemas.outputFormat r = Some cls →
  OBS_BUCKET ext = Some bucket →
  handlers.writer ext cls (spec.tabular (s :: ss)) = inr data →
  k = (if schemas.isBackup r then spec.backup_key cls
       else spec.export_key w cls) →
  s3_put_object ext bucket k = Some e →
  ∃ w',
    main.get_currency_rates ext r (Some c) w = (inl e, w')
    ∧ objects w' = objects w
    ∧ trace w'
      = trace w
          ++ [Execute (SelectRange (schemas.startDate r) (schemas.endDate r));
              Encode (handlers.extension cls);
              PutObject bucket k data (handlers.content_type cls)].
Proof.
  rewrite select_entries_run. cbn [fst].
  unfold spec.export_key, spec.backup_key.
  intros [= Hs] Hl Hbk Hw -> Hput.
  enter_pipeline Hs Hl. rewrite Hw. handler_fields. rewrite Hbk.
  handler_fields.
  destruct (schemas.isBackup r); handler_fields; world_fields;
    rewrite Hput, write_empty; handler_fields; world_fields;
    (eexists; split; [reflexivity|]); world_fields;
    rewrite <- !app_assoc; done.
Qed.

Lemma rejected_upload_gives_no_link_witness :
  ∃ w',
    main.get_currency_rates
      (sample.deployment (Some "rates") (sample.encode_rows Byte.x6a)
         (Some ClientError) (inr "https://spoo.me/abc"))
      sample.export_request (Some aiobotocore.s3_client)
      (sample.world sample.table)
    = (inl ClientError, w')
    ∧ objects w' = objects (sample.world sample.table)
    ∧ trace w'
      = trace (sample.world sample.table)
          ++ [Execute (SelectRange (schemas.startDate sample.export_request)
                                   (schemas.endDate sample.export_request));
              Encode (handlers.extension handlers.JSONMaker);
              PutObject "rates"
                (spec.export_key (sample.world sample.table)
                   handlers.JSONMaker)
                [Byte.x6a; Byte.x0a; Byte.x0a; Byte.x0a; Byte.x0a; Byte.x0a]
                (handlers.content_type handlers.JSONMaker)].
Proof.
  apply (rejected_upload_gives_no_link _ sample.export_request
           aiobotocore.s3_client _ sample.oldest sample.later
           handlers.JSONMaker "rates"
           [Byte.x6a; Byte.x0a; Byte.x0a; Byte.x0a; Byte.x0a; Byte.x0a]
           _ ClientError);
    vm_compute; reflexivity.
Defined.

(** X7: when the shortener fails, its exception leaves the endpoint: no
    answer carries the long link instead, and the object uploaded just
    before stays in the bucket. *)
Theorem shortener_failure_propagates ext r c w s ss cls bucket data long e :
  schemas.isBackup r = false →
  (main.select_entries r w).1 = inr (s :: ss) →
  schemas.available_output_formats !! schemas.outputFormat r = Some cls →
  OBS_BUCKET ext = Some bucket →
  handlers.writer ext cls (spec.tabular (s :: ss)) = inr data →
  s3_put_object ext bucket (spec.export_key w cls) = None →
  s3_presigned_url ext bucket (spec.export_key w cls) = inr long →
  spoo_shorten ext long = inl e →
  ∃ w',
    main.get_currency_rates ext r (Some c) w = (inl e, w')
    ∧ objects w' !! (bucket, spec.export_key w cls)
      = Some {| s3_body := data;
                s3_content_type := handlers.content_type cls |}
    ∧ trace w'
      = trace w
          ++ [Execute (SelectRange (schemas.startDate r) (schemas.endDate r));
              Encode (handlers.extension cls);
              PutObject bucket (spec.export_key w cls) data
                (handlers.content_type cls);
              GeneratePresignedUrl bucket (spec.export_key w cls);
              Shorten long].
Proof.
  rewrite select_entries_run. cbn [fst]. unfold spec.export_key.
  intros Hb [= Hs] Hl Hbk Hw Hput Hpre Hsh.
  enter_pipeline Hs Hl. rewrite Hw, Hb. handler_fields.
  rewrite Hbk. handler_fields. world_fields.
  rewrite Hput, write_empty. handler_fields. world_fields.
  rewrite Hpre. handler_fields. world_fields.
  rewrite Hsh. handler_fields.
  eexists. split; [reflexivity|]. world_fields.
  rewrite lookup_insert_eq, <- !app_assoc. done.
Qed.

Lemma shortener_failure_propagates_witness :
  ∃ w',
    main.get_currency_rates
      (sample.deployment (Some "rates") (sample.encode_rows Byte.x6a)
         None (inl ShortenerError))
      sample.export_request (Some aiobotocore.s3_client)
      (sample.world sample.table)
    = (inl ShortenerError, w')
    ∧ objects w'
      !! ("rates",
          spec.export_key (sample.world sample.table) handlers.JSONMaker)
      = Some {| s3_body :=
                  [Byte.x6a; Byte.x0a; Byte.x0a; Byte.x0a; Byte.x0a; Byte.x0a];
                s3_content_type :=
                  handlers.content_type handlers.JSONMaker |}
    ∧ trace w'
      = trace (sample.world sample.table)
          ++ [Execute (SelectRange (schemas.startDate sample.export_request)
                                   (schemas.endDate sample.export_request));
              Encode (handlers.extension handlers.JSONMaker);
              PutObject "rates"
                (spec.export_key (sample.world sample.table)
                   handlers.JSONMaker)
                [Byte.x6a; Byte.x0a; Byte.x0a; Byte.x0a; Byte.x0a; Byte.x0a]
                (handlers.content_type handlers.JSONMaker);
              GeneratePresignedUrl "rates"
                (spec.export_key (sample.world sample.table)
                   handlers.JSONMaker);
              Shorten
                "https://obs/rates/01234567-89ab-4def-8123-456789abcdef.json"].
Proof.
  apply (shortener_failure_propagates _ sample.export_request
           aiobotocore.s3_client _ sample.oldest sample.later
           handlers.JSONMaker "rates"
           [Byte.x6a; Byte.x0a; Byte.x0a; Byte.x0a; Byte.x0a; Byte.x0a]
           "https://obs/rates/01234567-89ab-4def-8123-456789abcdef.json"
           ShortenerError);
    vm_compute; reflexivity.
Defined.

(** ** What every run keeps *)

Lemma content_type_inj (c1 c2 : handlers.Maker) :
  handlers.content_type c1 = handlers.content_type c2 → c1 = c2.
Proof. destruct c1, c2; simpl; intros; simplify_eq; reflexivity. Qed.

(** X8: in every run of GET /currency-rates, whatever its outcome, an
    encoding is for the requested format, and an upload goes to the
    configured bucket under a key that ends in "." and the requested
    format, with the content type of the handler class registered for
    that format; different classes have different content types. *)
Theorem upload_matches_requested_format (ext : Externals)
    (r : schemas.Request) (client : option aiobotocore.AioBaseClient)
    (w : World) :
  ∃ evs,
    trace (main.get_currency_rates ext r client w).2 = trace w ++ evs
    ∧ (∀ x, Encode x ∈ evs → x = schemas.outputFormat r)
    ∧ (∀ b k d ct,
         PutObject b k d ct ∈ evs →
         ∃ cls name,
           schemas.available_output_formats !! schemas.outputFormat r
           = Some cls
           ∧ ct = handlers.content_type cls
           ∧ k = name +:+ "." +:+ schemas.outputFormat r
           ∧ OBS_BUCKET ext = Some b)
    ∧ (∀ c1 c2,
         handlers.content_type c1 = handlers.content_type c2 → c1 = c2).
Proof.
  destruct (get_currency_rates_effects ext r client w)
    as (evs & Ht & _ & _ & _ & Hshape & _).
  eexists. split; [exact Ht|]. split; [|split; [|exact content_type_inj]].
  - intros x [H|H]%elem_of_cons; [discriminate|].
    destruct (Hshape _ H) as [Hl|[He|(cls & b & name & d & He & _)]];
      [discriminate Hl|by injection He|discriminate He].
  - intros b k d ct [H|H]%elem_of_cons; [discriminate|].
    destruct (Hshape _ H)
      as [Hl|[He|(cls & b' & name & d' & He & Hcls & Hb & _)]];
      [discriminate Hl|discriminate He|].
    injection He as -> -> -> ->. by exists cls, name.
Qed.

(** X9: a run of GET /currency-rates changes the bucket by at most one
    object, and only through an upload that appears among its calls and
    that the object store accepted; in every other case, failures
    included, the bucket is as before. *)
Theorem bucket_changes_only_by_accepted_upload (ext : Externals)
    (r : schemas.Request) (client : option aiobotocore.AioBaseClient)
    (w : World) :
  ∃ evs,
    trace (main.get_currency_rates ext r client w).2 = trace w ++ evs
    ∧ (objects (main.get_currency_rates ext r client w).2 = objects w
       ∨ ∃ b k d ct,
           PutObject b k d ct ∈ evs
           ∧ s3_put_object ext b k = None
           ∧ objects (main.get_currency_rates ext r client w).2
             = <[(b, k) := {| s3_body := d; s3_content_type := ct |}]>
                 (objects w)).
Proof.
  destruct (get_currency_rates_effects ext r client w)
    as (evs & Ht & _ & _ & _ & _ & [Ho|(b & k & d & ct & Hin & Hput & Ho)]).
  - eexists. split; [exact Ht|]. by left.
  - eexists. split; [exact Ht|]. right. exists b, k, d, ct.
    split; [by right|]. done.
Qed.

Lemma hyphenate_get_8 (h : string) :
  String.length h = 32%nat →
  String.get 8 (uuid.hyphenate h) = Some "-"%char.
Proof.
  intros H1.
  do 32 (destruct h as [|? h]; [discriminate H1|];
         cbn [String.length] in H1; apply Nat.succ_inj in H1).
  destruct h; [|discriminate H1]. reflexivity.
Qed.

Lemma export_key_is_no_backup_key (u : Z) (e e' : string) :
  uuid.str u +:+ "." +:+ e ≠ "currency_rates_db_backup" +:+ "." +:+ e'.
Proof.
  intros H. apply (f_equal (String.get 8)) in H.
  rewrite <- String.append_correct1 in H
    by (rewrite str_length; lia).
  unfold uuid.str in H. rewrite hyphenate_get_8 in H by apply zfill_length.
  discriminate H.
Qed.

(** X10: a request with the backup flag clear never uploads under the
    backup key of any format, so an ad-hoc export cannot replace a
    backup object. *)
Theorem export_never_overwrites_backup (ext : Externals)
    (r : schemas.Request) (client : option aiobotocore.AioBaseClient)
    (w : World) :
  schemas.isBackup r = false →
  ∃ evs,
    trace (main.get_currency_rates ext r client w).2 = trace w ++ evs
    ∧ Forall (λ e, ∀ b k d ct cls,
                e = PutObject b k d ct → k ≠ spec.backup_key cls)
        evs.
Proof.
  intros Hb.
  destruct (get_currency_rates_effects ext r client w)
    as (evs & Ht & _ & _ & _ & Hshape & _).
  eexists. split; [exact Ht|]. constructor; [discriminate|].
  apply Forall_forall. intros e He b k d ct cls' ->.
  destruct (Hshape _ He)
    as [Hl|[Hx|(cls & b' & name & d' & Hx & _ & _ & Hn)]];
    [discriminate Hl|discriminate Hx|].
  rewrite Hb in Hn. injection Hx as -> -> -> ->. subst name.
  apply export_key_is_no_backup_key.
Qed.

Lemma export_never_overwrites_backup_witness :
  ∃ evs,
    trace (main.get_currency_rates sample.ext sample.export_request
             (Some aiobotocore.s3_client) (sample.world sample.table)).2
    = trace (sample.world sample.table) ++ evs
    ∧ Forall (λ e, ∀ b k d ct cls,
                e = PutObject b k d ct → k ≠ spec.backup_key cls)
        evs.
Proof.
  apply (export_never_overwrites_backup sample.ext sample.export_request
           (Some aiobotocore.s3_client) (sample.world sample.table)).
  reflexivity.
Defined.

(** X11: two backups of one format in a row, each succeeding, upload
    under the same key: the bucket ends with the object the second one
    wrote in the place of the first's, and holds the same keys as after
    the first; both answer 204.  The two requests may meet different
    writers (a writer may embed the time of writing), so the second
    object need not have the content of the first. *)
Theorem repeated_backup_overwrites ext1 ext2 r c w s ss cls bucket
    data1 data2 :
  schemas.isBackup r = true →
  (main.select_entries r w).1 = inr (s :: ss) →
  schemas.available_output_formats !! schemas.outputFormat r = Some cls →
  OBS_BUCKET ext1 = Some bucket →
  OBS_BUCKET ext2 = Some bucket →
  handlers.writer ext1 cls (spec.tabular (s :: ss)) = inr data1 →
  handlers.writer ext2 cls (spec.tabular (s :: ss)) = inr data2 →
  s3_put_object ext1 bucket (spec.backup_key cls) = None →
  s3_put_object ext2 bucket (spec.backup_key cls) = None →
  ∃ w1 w2,
    main.get_currency_rates ext1 r (Some c) w
    = (inr (main.StatusOnly 204), w1)
    ∧ main.get_currency_rates ext2 r (Some c) w1
      = (inr (main.StatusOnly 204), w2)
    ∧ objects w1
      = <[(bucket, spec.backup_key cls)
          := {| s3_body := data1;
                s3_content_type := handlers.content_type cls |}]>
          (objects w)
    ∧ objects w2
      = <[(bucket, spec.backup_key cls)
          := {| s3_body := data2;
                s3_content_type := handlers.content_type cls |}]>
          (objects w)
    ∧ dom (objects w2) = dom (objects w1).
Proof.
  unfold spec.backup_key. intros Hb Hs Hl Hbk1 Hbk2 Hw1 Hw2 Hput1 Hput2.
  destruct (backup_run ext1 r c w s ss cls bucket data1 Hb Hs Hl Hbk1 Hw1
              Hput1) as (w1 & Hr1 & _ & Ho1 & _).
  assert (currency_rates w1 = currency_rates w) as Hc1.
  { destruct (export_never_changes_store ext1 r (Some c) w) as [Hc _].
    by rewrite Hr1 in Hc. }
  assert ((main.select_entries r w1).1 = inr (s :: ss)) as Hs1.
  { rewrite select_entries_run in Hs |- *. cbn [fst] in *. by rewrite Hc1. }
  destruct (backup_run ext2 r c w1 s ss cls bucket data2 Hb Hs1 Hl Hbk2 Hw2
              Hput2) as (w2 & Hr2 & _ & Ho2 & _).
  exists w1, w2. split; [done|]. split; [done|]. split; [done|].
  rewrite Ho2, Ho1, insert_insert_eq. split; [done|].
  rewrite !dom_insert_L. set_solver.
Qed.

(** The theorem at two backups of the sample store whose writers give
    different bytes. *)
Lemma repeated_backup_overwrites_witness :
  ∃ w1 w2,
    main.get_currency_rates sample.ext main.backup_request
      (Some aiobotocore.s3_client) (sample.world sample.table)
    = (inr (main.StatusOnly 204), w1)
    ∧ main.get_currency_rates
        (sample.deployment (Some "rates") (sample.encode_rows Byte.x71) None
           (inr "https://spoo.me/abc"))
        main.backup_request (Some aiobotocore.s3_client) w1
      = (inr (main.StatusOnly 204), w2)
    ∧ objects w1
      = <[("rates", spec.backup_key handlers.ParquetMaker)
          := {| s3_body :=
                  [Byte.x70; Byte.x0a; Byte.x0a; Byte.x0a; Byte.x0a; Byte.x0a];
                s3_content_type :=
                  handlers.content_type handlers.ParquetMaker |}]>
          (objects (sample.world sample.table))
    ∧ objects w2
      = <[("rates", spec.backup_key handlers.ParquetMaker)
          := {| s3_body :=
                  [Byte.x71; Byte.x0a; Byte.x0a; Byte.x0a; Byte.x0a; Byte.x0a];
                s3_content_type :=
                  handlers.content_type handlers.ParquetMaker |}]>
          (objects (sample.world sample.table))
    ∧ dom (objects w2) = dom (objects w1).
Proof.
  apply (repeated_backup_overwrites sample.ext
           (sample.deployment (Some "rates") (sample.encode_rows Byte.x71)
              None (inr "https://spoo.me/abc"))
           main.backup_request
           aiobotocore.s3_client (sample.world sample.table)
           sample.oldest sample.later handlers.ParquetMaker "rates"
           [Byte.x70; Byte.x0a; Byte.x0a; Byte.x0a; Byte.x0a; Byte.x0a]
           [Byte.x71; Byte.x0a; Byte.x0a; Byte.x0a; Byte.x0a; Byte.x0a]);
    vm_compute; reflexivity.
Defined.

(** ** Request validation *)

(** X12: a date parameter that does not parse in the form %Y%m%d makes
    GET /currency-rates answer with a validation error naming the
    parameter while the world stays exactly as it was; the end date is
    only looked at once the start date has passed. *)
Theorem bad_date_rejected_first :
  (∀ ext q w s,
     schemas.q_startDate q = Some s →
     strptime ext s "%Y%m%d" = None →
     main.GET_currency_rates ext q w
     = (inl (ValidationError "startDate"), w))
  ∧ (∀ ext q w s,
       (∀ s0, schemas.q_startDate q = Some s0 →
              strptime ext s0 "%Y%m%d" ≠ None) →
       schemas.q_endDate q = Some s →
       strptime ext s "%Y%m%d" = None →
       main.GET_currency_rates ext q w
       = (inl (ValidationError "endDate"), w)).
Proof.
  split.
  - intros ext q w s Hq Hp.
    unfold main.GET_currency_rates, schemas.Request_validate,
      schemas.request_date. rewrite Hq.
    cbn [from_option schemas.handle_dates]. by rewrite Hp.
  - intros ext q w s Hstart Hq Hp.
    unfold main.GET_currency_rates, schemas.Request_validate,
      schemas.request_date. rewrite Hq.
    destruct (schemas.q_startDate q) as [s0|];
      cbn [from_option schemas.handle_dates].
    + destruct (strptime ext s0 "%Y%m%d") eqn:E;
        [|by destruct (Hstart s0 eq_refl)].
      by rewrite Hp.
    + by rewrite Hp.
Qed.

Lemma bad_date_rejected_first_witness :
  main.GET_currency_rates sample.ext
    {| schemas.q_startDate := Some "2024-01-01"; schemas.q_endDate := None;
       schemas.q_outputFormat := None; schemas.q_isBackup := None |}
    (sample.world sample.table)
  = (inl (ValidationError "startDate"), sample.world sample.table).
Proof.
  apply (proj1 bad_date_rejected_first sample.ext _ _ "2024-01-01");
    reflexivity.
Defined.

(** ** Deleting records *)

Lemma int4_spec (i : Z) : main.int4 i = true ↔ - 2 ^ 31 <= i < 2 ^ 31.
Proof. unfold main.int4. rewrite andb_true_iff. lia. Qed.

Lemma forallb_int4 (delete_ids : list Z) :
  forallb main.int4 delete_ids = true
  ↔ Forall (λ i, - 2 ^ 31 <= i < 2 ^ 31) delete_ids.
Proof.
  rewrite forallb_forall, Forall_forall. split; intros H i Hi.
  - by apply int4_spec, H, list_elem_of_In.
  - by apply int4_spec, H, list_elem_of_In.
Qed.

Lemma delete_currency_rates_unfold ext delete_ids client w :
  Forall (λ i, - 2 ^ 31 <= i < 2 ^ 31) delete_ids →
  main.delete_currency_rates ext delete_ids client w
  = match
      main.get_currency_rates ext main.backup_request client
        {| currency_rates :=
             main.delete_statement delete_ids (currency_rates w);
           objects := objects w; urandom := urandom w; drawn := drawn w;
           trace := trace w |}
    with
    | (inl e, w') => (inl e, w')
    | (inr _, w') => (inr tt, w')
    end.
Proof.
  intros Hids%forallb_int4.
  unfold main.delete_currency_rates, main.delete_entries. rewrite Hids.
  destruct (main.logfire_token ext); reflexivity.
Qed.


Lemma delete_statement_elem (delete_ids : list Z)
    (table : list models.CurrencyRate) (row : models.CurrencyRate) :
  row ∈ main.delete_statement delete_ids table
  ↔ row ∈ table ∧ models.id row ∉ delete_ids.
Proof.
  unfold main.delete_statement.
  rewrite list_elem_of_In, List.filter_In, <- list_elem_of_In.
  rewrite negb_true_iff, bool_decide_eq_false. done.
Qed.

Lemma delete_statement_app (ids1 ids2 : list Z)
    (table : list models.CurrencyRate) :
  main.delete_statement ids2 (main.delete_statement ids1 table)
  = main.delete_statement (ids1 ++ ids2) table.
Proof.
  unfold main.delete_statement. rewrite filter_filter_andb.
  apply List.filter_ext. intros row.
  apply eq_true_iff_eq.
  rewrite andb_true_iff, !negb_true_iff, !bool_decide_eq_false.
  rewrite elem_of_app. tauto.
Qed.

Lemma where_no_clause {A} (rows : list A) : sql.where_ [] rows = rows.
Proof.
  unfold sql.where_. induction rows as [|row rows IH]; [reflexivity|].
  cbn [List.filter forallb]. f_equal. exact IH.
Qed.

Lemma deleted_table ext delete_ids client w :
  Forall (λ i, - 2 ^ 31 <= i < 2 ^ 31) delete_ids →
  currency_rates (main.delete_currency_rates ext delete_ids client w).2
  = main.delete_statement delete_ids (currency_rates w).
Proof.
  intros Hids. rewrite delete_currency_rates_unfold by done.
  match goal with
  | |- context [main.get_currency_rates ?e ?r ?c ?w0] =>
      destruct (export_never_changes_store e r c w0) as [Hc _];
      destruct (main.get_currency_rates e r c w0) as [[err|res] w']
  end; exact Hc.
Qed.

(** X13: a DELETE whose identifiers all fit the 32-bit column leaves
    exactly the records whose identifier is not listed, each as often as
    it was stored, and it does so whatever becomes of the backup that
    follows: a failing backup does not undo the deletion. *)
Theorem delete_removes_exactly_the_listed (ext : Externals)
    (delete_ids : list Z) (client : option aiobotocore.AioBaseClient)
    (w : World) :
  Forall (λ i, - 2 ^ 31 <= i < 2 ^ 31) delete_ids →
  currency_rates (main.delete_currency_rates ext delete_ids client w).2
  = main.delete_statement delete_ids (currency_rates w)
  ∧ (∀ row,
       row ∈ currency_rates
               (main.delete_currency_rates ext delete_ids client w).2
       ↔ row ∈ currency_rates w ∧ models.id row ∉ delete_ids).
Proof.
  intros Hids. rewrite deleted_table by done.
  split; [reflexivity|]. intros row. apply delete_statement_elem.
Qed.

(** The theorem at the sample store, with storage disabled so that the
    backup fails after the deletion. *)
Lemma delete_removes_exactly_the_listed_witness :
  currency_rates
    (main.delete_currency_rates sample.ext_disabled [1; 3; 5] None
       (sample.world sample.table)).2
  = main.delete_statement [1; 3; 5]
      (currency_rates (sample.world sample.table))
  ∧ (∀ row,
       row ∈ currency_rates
               (main.delete_currency_rates sample.ext_disabled [1; 3; 5] None
                  (sample.world sample.table)).2
       ↔ row ∈ currency_rates (sample.world sample.table)
         ∧ models.id row ∉ [1; 3; 5]).
Proof.
  apply (delete_removes_exactly_the_listed sample.ext_disabled [1; 3; 5] None
           (sample.world sample.table)).
  repeat constructor; lia.
Defined.

(** X14: two DELETEs in a row, of identifiers that fit the column, leave
    the table that one DELETE of both lists leaves, whatever their
    backups do; in particular repeating a DELETE changes nothing more. *)
Theorem consecutive_deletes_compose (ext : Externals) (ids1 ids2 : list Z)
    (client1 client2 client : option aiobotocore.AioBaseClient)
    (w : World) :
  Forall (λ i, - 2 ^ 31 <= i < 2 ^ 31) ids1 →
  Forall (λ i, - 2 ^ 31 <= i < 2 ^ 31) ids2 →
  currency_rates
    (main.delete_currency_rates ext ids2 client2
       (main.delete_currency_rates ext ids1 client1 w).2).2
  = currency_rates
      (main.delete_currency_rates ext (ids1 ++ ids2) client w).2
  ∧ currency_rates
      (main.delete_currency_rates ext ids1 client2
         (main.delete_currency_rates ext ids1 client1 w).2).2
    = currency_rates (main.delete_currency_rates ext ids1 client1 w).2.
Proof.
  intros H1 H2.
  rewrite !deleted_table by (done || by apply Forall_app).
  rewrite !delete_statement_app. split; [reflexivity|].
  unfold main.delete_statement.
  apply List.filter_ext. intros row. do 2 f_equal.
  apply bool_decide_ext. rewrite elem_of_app. tauto.
Qed.

Lemma consecutive_deletes_compose_witness :
  currency_rates
    (main.delete_currency_rates sample.ext [3; 4]
       (Some aiobotocore.s3_client)
       (main.delete_currency_rates sample.ext [1; 3]
          (Some aiobotocore.s3_client) (sample.world sample.table)).2).2
  = currency_rates
      (main.delete_currency_rates sample.ext ([1; 3] ++ [3; 4]) None
         (sample.world sample.table)).2
  ∧ currency_rates
      (main.delete_currency_rates sample.ext [1; 3]
         (Some aiobotocore.s3_client)
         (main.delete_currency_rates sample.ext [1; 3]
            (Some aiobotocore.s3_client) (sample.world sample.table)).2).2
    = currency_rates
        (main.delete_currency_rates sample.ext [1; 3]
           (Some aiobotocore.s3_client) (sample.world sample.table)).2.
Proof.
  apply (consecutive_deletes_compose sample.ext [1; 3] [3; 4]
           (Some aiobotocore.s3_client) (Some aiobotocore.s3_client) None
           (sample.world sample.table));
    repeat constructor; lia.
Defined.

(** X15: when every stored record is listed, and the identifiers fit
    the column, DELETE empties the table and the backup that follows
    finds nothing to export: the endpoint returns normally with any
    client, sends out the SELECT only, and leaves the bucket, with any
    earlier backup object, as it was. *)
Theorem deleting_everything_skips_backup ext delete_ids client w :
  Forall (λ i, - 2 ^ 31 <= i < 2 ^ 31) delete_ids →
  (∀ row, row ∈ currency_rates w → models.id row ∈ delete_ids) →
  ∃ w',
    main.delete_currency_rates ext delete_ids client w = (inr tt, w')
    ∧ currency_rates w' = []
    ∧ objects w' = objects w
    ∧ trace w' = trace w ++ [Execute (SelectRange None None)].
Proof.
  intros Hids Hall.
  assert (main.delete_statement delete_ids (currency_rates w) = []) as Hd.
  { unfold main.delete_statement.
    induction (currency_rates w) as [|row table IH]; [reflexivity|].
    cbn [List.filter].
    rewrite bool_decide_eq_true_2 by (apply Hall; by left).
    apply IH. intros row' H. apply Hall. by right. }
  rewrite delete_currency_rates_unfold by done.
  rewrite (empty_result_run ext main.backup_request client).
  - eexists. split; [reflexivity|]. cbn [currency_rates record_events].
    done.
  - rewrite select_entries_run. cbn [fst currency_rates]. by rewrite Hd.
  - reflexivity.
Qed.

Lemma deleting_everything_skips_backup_witness :
  ∃ w',
    main.delete_currency_rates sample.ext [5; 4; 3; 2; 1; 0]
      (Some aiobotocore.s3_client) (sample.world sample.table)
    = (inr tt, w')
    ∧ currency_rates w' = []
    ∧ objects w' = objects (sample.world sample.table)
    ∧ trace w'
      = trace (sample.world sample.table) ++ [Execute (SelectRange None None)].
Proof.
  apply (deleting_everything_skips_backup sample.ext [5; 4; 3; 2; 1; 0]
           (Some aiobotocore.s3_client) (sample.world sample.table)).
  - repeat constructor; lia.
  - intros row Hrow.
    repeat (apply elem_of_cons in Hrow as [->|Hrow]);
      [cbn; set_solver ..|by apply elem_of_nil in Hrow].
Defined.

Lemma date_then_code_same_key (x y : models.CurrencyRate) :
  spec.date_then_code x y → spec.date_then_code y x →
  (models.date x, models.letter_code x)
  = (models.date y, models.letter_code y).
Proof.
  unfold spec.date_then_code.
  intros [[Hxy Hne]|[Ed Hxy]] [[Hyx Hne']|[Ed' Hyx]]; try congruence.
  - exfalso. apply Hne. by apply (anti_symm datetime.le).
  - f_equal; [done|]. by apply String.leb_antisym.
Qed.

Lemma order_by_columns_unique (rows sorted : list models.CurrencyRate) :
  sorted ≡ₚ rows →
  StronglySorted spec.date_then_code sorted →
  NoDup (map (λ row, (models.date row, models.letter_code row)) sorted) →
  sql.order_by main.columns rows = sorted.
Proof.
  intros Hperm Hsorted Hkeys. unfold sql.order_by.
  apply (StronglySorted_unique_strong spec.date_then_code).
  - intros x y Hx Hy Hxy Hyx.
    apply (NoDup_map_inj_on _ sorted x y Hkeys); [|done|].
    + rewrite merge_sort_Permutation in Hx. by rewrite Hperm.
    + by apply date_then_code_same_key.
  - eapply StronglySorted_weaken;
      [|apply (StronglySorted_merge_sort main.columns)].
    intros x y Hxy. by apply columns_date_then_code.
  - exact Hsorted.
  - by rewrite merge_sort_Permutation.
Qed.

(** X16: after a DELETE of identifiers that fit the column which leaves
    records, no two of them of one date and code, with storage
    configured and working, the backup that follows holds the remaining
    records: what is uploaded under the fixed parquet backup key is the
    parquet writer's output for the remaining records in date and code
    order. *)
Theorem delete_backs_up_remaining_records ext delete_ids c w s ss bucket
    data :
  Forall (λ i, - 2 ^ 31 <= i < 2 ^ 31) delete_ids →
  s :: ss ≡ₚ main.delete_statement delete_ids (currency_rates w) →
  StronglySorted spec.date_then_code (s :: ss) →
  NoDup (map (λ row, (models.date row, models.letter_code row)) (s :: ss)) →
  OBS_BUCKET ext = Some bucket →
  to_parquet ext (spec.tabular (s :: ss)) = inr data →
  s3_put_object ext bucket (spec.backup_key handlers.ParquetMaker) = None →
  ∃ w',
    main.delete_currency_rates ext delete_ids (Some c) w = (inr tt, w')
    ∧ currency_rates w'
      = main.delete_statement delete_ids (currency_rates w)
    ∧ trace w'
      = trace w
          ++ [Execute (SelectRange None None);
              Encode "parquet";
              PutObject bucket (spec.backup_key handlers.ParquetMaker) data
                "application/vnd.apache.parquet"]
    ∧ objects w'
      = <[(bucket, spec.backup_key handlers.ParquetMaker)
          := {| s3_body := data;
                s3_content_type := "application/vnd.apache.parquet" |}]>
          (objects w).
Proof.
  intros Hids Hperm Hsorted Hkeys Hbk Hw Hput.
  pose proof (order_by_columns_unique _ _ Hperm Hsorted Hkeys) as Hs.
  pose proof (deleted_table ext delete_ids (Some c) w Hids) as Hc.
  rewrite delete_currency_rates_unfold in Hc |- * by done.
  match goal with
  | |- context [main.get_currency_rates ?e ?r ?cl ?w0] =>
      destruct (backup_run e r c w0 s ss handlers.ParquetMaker bucket data)
        as (w' & Hr & Ht & Ho & _);
      [reflexivity
      |rewrite select_entries_run; cbn [fst currency_rates];
       change (main.clauses main.backup_request)
         with (@nil (models.CurrencyRate → bool));
       by rewrite where_no_clause, Hs
      |reflexivity|done|done|done|]
  end.
  rewrite Hr in Hc |- *. cbn [snd] in Hc.
  exists w'. split; [reflexivity|]. split; [exact Hc|].
  split; [exact Ht|exact Ho].
Qed.

Lemma delete_backs_up_remaining_records_witness :
  ∃ w',
    main.delete_currency_rates sample.ext [1; 3; 5]
      (Some aiobotocore.s3_client) (sample.world sample.table)
    = (inr tt, w')
    ∧ currency_rates w'
      = main.delete_statement [1; 3; 5]
          (currency_rates (sample.world sample.table))
    ∧ trace w'
      = trace (sample.world sample.table)
          ++ [Execute (SelectRange None None);
              Encode "parquet";
              PutObject "rates" (spec.backup_key handlers.ParquetMaker)
                [Byte.x70; Byte.x0a; Byte.x0a]
                "application/vnd.apache.parquet"]
    ∧ objects w'
      = <[("rates", spec.backup_key handlers.ParquetMaker)
          := {| s3_body := [Byte.x70; Byte.x0a; Byte.x0a];
                s3_content_type := "application/vnd.apache.parquet" |}]>
          (objects (sample.world sample.table)).
Proof.
  apply (delete_backs_up_remaining_records sample.ext [1; 3; 5]
           aiobotocore.s3_client (sample.world sample.table)
           (sample.rate 2 "978" "EUR" (sample.day 2024 1 9) (983 # 10))
           [sample.rate 4 "156" "CNY" (sample.day 2024 1 20) (125 # 10)]
           "rates" [Byte.x70; Byte.x0a; Byte.x0a]).
  - repeat constructor; lia.
  - vm_compute. reflexivity.
  - apply SSorted_cons;
      [apply SSorted_cons; [apply SSorted_nil|apply List.Forall_nil]|].
    apply List.Forall_cons; [|apply List.Forall_nil].
    left. split; [|discriminate]. unfold datetime.le. simpl. lia.
  - apply (bool_decide_unpack _). vm_compute. exact I.
  - reflexivity.
  - vm_compute. reflexivity.
  - reflexivity.
Defined.



(** ** The token check *)

(** X17: [api_token] accepts exactly the configured token, which is
    "default_token_for_development" when API_TOKEN is not set; with any
    other token DELETE /currency-rates answers 403 and the world (records,
    bucket, calls sent out) is exactly as it was, and with the configured
    token it does what the endpoint function does. *)
Theorem wrong_token_changes_nothing :
  (∀ API_TOKEN token,
     main.api_token API_TOKEN token = inr tt
     ↔ token = default "default_token_for_development" API_TOKEN)
  ∧ (∀ ext API_TOKEN token delete_ids w,
       token ≠ default "default_token_for_development" API_TOKEN →
       main.DELETE_currency_rates ext API_TOKEN token delete_ids w
       = (inr (inl (main.mkHTTPException 403)), w))
  ∧ (∀ ext API_TOKEN token delete_ids w,
       token = default "default_token_for_development" API_TOKEN →
       (main.DELETE_currency_rates ext API_TOKEN token delete_ids w).2
       = (main.delete_currency_rates ext delete_ids
            (botocore_client.get_async_client ext) w).2).
Proof.
  split; [|split].
  - intros API_TOKEN token. unfold main.api_token.
    destruct (String.eqb_spec token
                (default "default_token_for_development" API_TOKEN));
      simpl; split; intros; simplify_eq; done.
  - intros ext API_TOKEN token delete_ids w Hne.
    unfold main.DELETE_currency_rates, main.api_token.
    apply String.eqb_neq in Hne. rewrite Hne. reflexivity.
  - intros ext API_TOKEN token delete_ids w ->.
    unfold main.DELETE_currency_rates, main.api_token.
    rewrite String.eqb_refl. cbn [negb].
    unfold mbind, M_bind, mret, M_ret.
    destruct (main.delete_currency_rates _ _ _ _) as [[e|[]] w'];
      reflexivity.
Qed.

Lemma wrong_token_changes_nothing_witness :
  main.DELETE_currency_rates sample.ext None "guess" [1; 2; 3]
    (sample.world sample.table)
  = (inr (inl (main.mkHTTPException 403)), sample.world sample.table).
Proof.
  apply (proj1 (proj2 wrong_token_changes_nothing) sample.ext None "guess").
  discriminate.
Defined.

(** ** More on the latest-rate statement *)

Lemma filter_all {A} (f : A → bool) (l : list A) :
  (∀ x, x ∈ l → f x = true) → List.filter f l = l.
Proof.
  induction l as [|a l IH]; intros H; [reflexivity|].
  cbn [List.filter]. rewrite (H a) by (by left). f_equal.
  apply IH. intros x Hx. apply H. by right.
Qed.

(** X18: the latest-rate statement depends on the requested codes only
    as a set (order and repetition do not matter, and an empty list asks
    for every code, like an absent parameter), and applied to its own
    result it selects all of that result again; both up to the order of
    the rows, which the statement leaves open. *)
Theorem latest_rates_depend_on_code_set :
  (∀ codes1 codes2 table,
     (∀ c, spec.requested codes1 c ↔ spec.requested codes2 c) →
     main.latest_statement codes1 table
     ≡ₚ main.latest_statement codes2 table)
  ∧ (∀ codes table,
       main.latest_statement codes (main.latest_statement codes table)
       ≡ₚ main.latest_statement codes table).
Proof.
  split.
  - intros codes1 codes2 table Hsame.
    rewrite !latest_statement_as_filter.
    erewrite List.filter_ext; [reflexivity|].
    intros row. cbv beta. f_equal. apply bool_decide_ext, Hsame.
  - intros codes table.
    rewrite (latest_statement_as_filter codes (main.latest_statement _ _)).
    rewrite filter_all; [reflexivity|]. intros x Hx.
    pose proof Hx as (_ & Hreq & _)%latest_statement_elem.
    apply andb_true_iff. split; [|by apply bool_decide_eq_true].
    apply List.existsb_exists. exists (spec.reading x).
    split; [|by apply join_condition_reading].
    apply list_elem_of_In.
    destruct (subquery_facts (main.latest_statement codes table))
      as (picked & -> & Hpick & Hall & _).
    destruct (Hall x Hx) as (x' & Hx' & Hc).
    destruct (Hpick x' Hx') as [Hin _].
    rewrite <- (latest_readings_agree codes table x' x Hin Hx Hc).
    by apply list_elem_of_fmap_2.
Qed.

Lemma latest_rates_depend_on_code_set_witness :
  main.latest_statement (Some ["USD"; "EUR"; "USD"]) sample.table
  ≡ₚ main.latest_statement (Some ["EUR"; "USD"]) sample.table.
Proof.
  apply (proj1 latest_rates_depend_on_code_set).
  intros c. cbn [spec.requested]. rewrite !elem_of_cons, elem_of_nil. tauto.
Defined.

(** ** The answer's echo of the request *)

Lemma returned_response_is_built_from_request ext r client w resp :
  (main.get_currency_rates ext r client w).1 = inr (main.Json resp) →
  ∃ u c, schemas.Response_of ext r u c = inr resp.
Proof.
  rewrite get_currency_rates_unfold.
  set (w1 := record_events w _). clearbody w1.
  destruct (sql.order_by main.columns _) as [|s ss].
  { unfold main.handle_entries, mbind, M_bind, lift, raise, mret, M_ret.
    destruct (schemas.Response_of ext r None _) as [e|resp'] eqn:Hr;
      cbn [fst]; intros [= <-]. eauto. }
  unfold main.handle_entries, mbind, M_bind.
  destruct (schemas.available_output_formats !! schemas.outputFormat r)
    as [cls|]; unfold raise, mret, M_ret; cbn [fst]; [|discriminate].
  rewrite init_nonempty. unfold lift, mret, M_ret.
  destruct (handlers.upload_contents ext _ w1) as [[e|h'] w2];
    [discriminate|].
  destruct (schemas.isBackup r); [discriminate|].
  destruct (handlers.generate_url ext h' w2) as [[e|[u h'']] w3];
    [discriminate|].
  unfold lift, raise, mret, M_ret.
  destruct (schemas.Response_of ext r (Some u) None) as [e|resp'] eqn:Hr;
    cbn [fst]; intros [= <-]. eauto.
Qed.

Lemma strftime_four_digit_year (d : datetime.date) :
  1000 <= datetime.year d →
  datetime.strftime_Y_m_d d = datetime.isoformat d.
Proof.
  intros Hy. unfold datetime.strftime_Y_m_d, datetime.isoformat,
    datetime.strftime_Y.
  rewrite !(proj2 (Z.ltb_ge _ _)) by lia. reflexivity.
Qed.

Lemma length_append (s1 s2 : string) :
  String.length (s1 +:+ s2) = (String.length s1 + String.length s2)%nat.
Proof. induction s1 as [|a s1 IH]; simpl; [reflexivity|]. by rewrite IH. Qed.

Lemma strftime_short_year (d : datetime.date) :
  datetime.year d < 1000 →
  (String.length (datetime.strftime_Y_m_d d) < 10)%nat.
Proof.
  intros Hy. unfold datetime.strftime_Y_m_d, datetime.strftime_Y.
  rewrite !length_append.
  repeat match goal with
         | |- context [if ?b then _ else _] => destruct b eqn:?
         end;
    rewrite !zfill_length; cbn [String.length]; lia.
Qed.

(** X19: every [Response] the endpoint returns echoes the request: its
    format is the requested one, and each bound is absent where the
    request's is absent and otherwise the request's date as
    [strftime("%Y-%m-%d")] prints it.  That is the ten-character ISO
    text for a year of four digits; for an earlier year the year comes
    without leading zeros and the text is shorter. *)
Theorem response_echoes_request ext r client w resp :
  (main.get_currency_rates ext r client w).1 = inr (main.Json resp) →
  schemas.r_outputFormat resp = schemas.outputFormat r
  ∧ schemas.r_startDate resp
    = datetime.strftime_Y_m_d <$> schemas.startDate r
  ∧ schemas.r_endDate resp = datetime.strftime_Y_m_d <$> schemas.endDate r
  ∧ (∀ d text,
       (schemas.startDate r = Some d ∧ schemas.r_startDate resp = Some text)
       ∨ (schemas.endDate r = Some d ∧ schemas.r_endDate resp = Some text) →
       (1000 <= datetime.year d →
        text = datetime.isoformat d ∧ String.length text = 10%nat)
       ∧ (datetime.year d < 1000 → (String.length text < 10)%nat)).
Proof.
  intros (u & c & H)%returned_response_is_built_from_request.
  unfold schemas.Response_of, schemas.response_date in H.
  assert (schemas.r_outputFormat resp = schemas.outputFormat r
          ∧ schemas.r_startDate resp
            = datetime.strftime_Y_m_d <$> schemas.startDate r
          ∧ schemas.r_endDate resp
            = datetime.strftime_Y_m_d <$> schemas.endDate r)
    as (Hf & Hs & He).
  { destruct (schemas.startDate r), (schemas.endDate r);
      cbn [from_option schemas.handle_dates] in H;
      destruct (negb _); try discriminate H; by injection H as <-. }
  split; [done|]. split; [done|]. split; [done|].
  assert (∀ d text, datetime.strftime_Y_m_d d = text →
            (1000 <= datetime.year d →
             text = datetime.isoformat d ∧ String.length text = 10%nat)
            ∧ (datetime.year d < 1000 → (String.length text < 10)%nat))
    as Hshape.
  { intros d text <-. split.
    - intros Hy. rewrite strftime_four_digit_year by done.
      split; [reflexivity|apply isoformat_shape].
    - apply strftime_short_year. }
  intros d text [[Hd Ht]|[Hd Ht]]; apply Hshape.
  - rewrite Hs, Hd in Ht. by injection Ht.
  - rewrite He, Hd in Ht. by injection Ht.
Qed.

(** The theorem at a request whose end date lies in the year 999: no
    record is selected and the answer echoes the bound as "999-12-31". *)
Lemma response_echoes_request_witness :
  schemas.r_outputFormat
    {| schemas.r_startDate := None; schemas.r_endDate := Some "999-12-31";
       schemas.r_outputFormat := "json"; schemas.url := None;
       schemas.comment := Some "No results" |}
  = schemas.outputFormat
      {| schemas.startDate := None;
         schemas.endDate := Some (sample.day 999 12 31);
         schemas.outputFormat := "json"; schemas.isBackup := false |}
  ∧ schemas.r_startDate
      {| schemas.r_startDate := None; schemas.r_endDate := Some "999-12-31";
         schemas.r_outputFormat := "json"; schemas.url := None;
         schemas.comment := Some "No results" |}
    = datetime.strftime_Y_m_d
        <$> schemas.startDate
              {| schemas.startDate := None;
                 schemas.endDate := Some (sample.day 999 12 31);
                 schemas.outputFormat := "json"; schemas.isBackup := false |}
  ∧ schemas.r_endDate
      {| schemas.r_startDate := None; schemas.r_endDate := Some "999-12-31";
         schemas.r_outputFormat := "json"; schemas.url := None;
         schemas.comment := Some "No results" |}
    = datetime.strftime_Y_m_d
        <$> schemas.endDate
              {| schemas.startDate := None;
                 schemas.endDate := Some (sample.day 999 12 31);
                 schemas.outputFormat := "json"; schemas.isBackup := false |}
  ∧ (∀ d text,
       (schemas.startDate
          {| schemas.startDate := None;
             schemas.endDate := Some (sample.day 999 12 31);
             schemas.outputFormat := "json"; schemas.isBackup := false |}
        = Some d
        ∧ schemas.r_startDate
            {| schemas.r_startDate := None;
               schemas.r_endDate := Some "999-12-31";
               schemas.r_outputFormat := "json"; schemas.url := None;
               schemas.comment := Some "No results" |}
          = Some text)
       ∨ (schemas.endDate
            {| schemas.startDate := None;
               schemas.endDate := Some (sample.day 999 12 31);
               schemas.outputFormat := "json"; schemas.isBackup := false |}
          = Some d
          ∧ schemas.r_endDate
              {| schemas.r_startDate := None;
                 schemas.r_endDate := Some "999-12-31";
                 schemas.r_outputFormat := "json"; schemas.url := None;
                 schemas.comment := Some "No results" |}
            = Some text) →
       (1000 <= datetime.year d →
        text = datetime.isoformat d ∧ String.length text = 10%nat)
       ∧ (datetime.year d < 1000 → (String.length text < 10)%nat)).
Proof.
  apply (response_echoes_request sample.ext
           {| schemas.startDate := None;
              schemas.endDate := Some (sample.day 999 12 31);
              schemas.outputFormat := "json"; schemas.isBackup := false |}
           (Some aiobotocore.s3_client) (sample.world sample.table)).
  vm_compute. reflexivity.
Defined.

